(** * ECHONET Lite codec and discovery of [mitsubishi.py]

    A shallow embedding of [BuildEchonetMsg], [DecodeEchonetMsg],
    [SendMessage] and [Discover], and the properties of the frame codec
    and of the discovery exchange that hold of them.

    Python integers are [Z]; a [bytes] object is a [list byte]; the request
    dictionary handed to [BuildEchonetMsg] is a [gmap string pyval]; the
    registries of the modules [eojx], [esv] and [epc] are parameters. *)

From Stdlib Require Import ZArith List String Ascii Lia.
From Stdlib Require Import Strings.Byte.
From stdpp Require Import gmap strings list fin_maps.

Local Open Scope Z_scope.

(** ** Python values, exceptions and outcomes *)

(** The values a request dictionary holds: an [int], or the list of
    property dictionaries stored under ['OPC'] (each maps a key to an [int]). *)
Inductive pyval :=
  | VInt (z : Z)
  | VList (l : list (gmap string Z)).

(** The exceptions this module can meet. [ValueError] carries its message. *)
Inductive exn :=
  | ValueError (msg : string)
  | KeyError
  | TypeError
  | IndexError.

(** How a call ends: it returns a value, it raises an exception that reaches
    the caller, or it calls [quit()], which ends the interpreter (no handler
    of this module catches the [SystemExit] that [quit] raises). What
    [print] writes is not tracked. *)
Inductive outcome (A : Type) :=
  | Return (a : A)
  | Raise (e : exn)
  | Quit.
Arguments Return {A} a.
Arguments Raise {A} e.
Arguments Quit {A}.

Definition obind {A B} (m : outcome A) (k : A -> outcome B) : outcome B :=
  match m with
  | Return a => k a
  | Raise e => Raise e
  | Quit => Quit
  end.

Declare Scope py_scope.
Delimit Scope py_scope with py.
Notation "x <- m ;; k" := (obind m (fun x => k))
  (at level 100, m at next level, right associativity) : py_scope.
Notation "m ;;; k" := (obind m (fun _ => k))
  (at level 100, right associativity) : py_scope.
Local Open Scope py_scope.

(** The handler of both codec functions:
    [except ValueError as error: print(...); quit()]. Every other exception
    passes through it. *)
Definition except_ValueError_quit {A} (m : outcome A) : outcome A :=
  match m with
  | Raise (ValueError _) => Quit
  | _ => m
  end.

(** ** [format(message, 'x')], [hex] and [bytearray.fromhex] *)

(** The character of a base-16 digit: ['0'] to ['9'] are the codes 48 to
    57, ['a'] to ['f'] the codes 97 to 102. *)
Definition hex_digit (d : Z) : ascii :=
  ascii_of_N (Z.to_N (if d <? 10 then 48 + d else 87 + d)).

(** The base-16 digits of a positive number, most significant first.
    [fuel] bounds the number of digits. *)
Fixpoint hex_digits (fuel : nat) (n : Z) : list Z :=
  match fuel with
  | O => []
  | S f => if n <=? 0 then [] else hex_digits f (n / 16) ++ [n mod 16]
  end.

Definition string_of_digits (ds : list Z) : string :=
  string_of_list_ascii (map hex_digit ds).

(** [format(n, 'x')] for [n >= 0]: lower-case digits, no prefix. A number
    below [16 ^ (1 + log2 n)] has at most [1 + log2 n] digits. *)
Definition format_x_nonneg (n : Z) : string :=
  if n =? 0 then "0"
  else string_of_digits (hex_digits (S (Z.to_nat (Z.log2 n))) n).

(** [format(n, 'x')] *)
Definition format_x (n : Z) : string :=
  if n <? 0 then String "-" (format_x_nonneg (- n)) else format_x_nonneg n.

(** [hex(n)] *)
Definition hex (n : Z) : string :=
  if n <? 0 then ("-0x" ++ format_x_nonneg (- n))%string
  else ("0x" ++ format_x_nonneg n)%string.

(** The value of a base-16 digit, in either case: ['A'] to ['F'] are the
    codes 65 to 70. *)
Definition hex_value (c : ascii) : option Z :=
  let n := Z.of_N (N_of_ascii c) in
  if (48 <=? n) && (n <=? 57) then Some (n - 48)
  else if (97 <=? n) && (n <=? 102) then Some (n - 87)
  else if (65 <=? n) && (n <=? 70) then Some (n - 55)
  else None.

(** ASCII whitespace, which [fromhex] skips between bytes. *)
Definition is_space (c : ascii) : bool :=
  let n := N_of_ascii c in
  ((9 <=? n) && (n <=? 13) || (n =? 32))%N.

(** The value of a byte as a Python [int]. *)
Definition byte_val (b : byte) : Z := Z.of_N (Byte.to_N b).

(** The byte of value [z], for [0 <= z < 256]. *)
Definition byte_of_Z (z : Z) : byte :=
  match Byte.of_N (Z.to_N z) with
  | Some b => b
  | None => x00
  end.

(** [bytearray.fromhex(s)]: two hexadecimal digits per byte, whitespace
    allowed between bytes, [ValueError] on anything else. *)
Fixpoint fromhex (s : string) : outcome (list byte) :=
  match s with
  | EmptyString => Return []
  | String c rest =>
      if is_space c then fromhex rest
      else
        match rest with
        | EmptyString =>
            Raise (ValueError "non-hexadecimal number found in fromhex() arg")
        | String d rest' =>
            match hex_value c, hex_value d with
            | Some h, Some l =>
                bs <- fromhex rest' ;; Return (byte_of_Z (16 * h + l) :: bs)
            | _, _ =>
                Raise (ValueError "non-hexadecimal number found in fromhex() arg")
            end
        end
  end.

(** [int.from_bytes(bs, byteorder='big')] *)
Definition int_from_bytes_big (bs : list byte) : Z :=
  fold_left (fun acc b => acc * 256 + byte_val b) bs 0.

(** [l[lo:hi]] for indices that are not negative: the slice never fails,
    it is cut short at the end of [l]. *)
Definition slice {A} (l : list A) (lo hi : nat) : list A :=
  take (hi - lo) (drop lo l).

(** [l[i]] for an index that is not negative. *)
Definition index {A} (l : list A) (i : nat) : outcome A :=
  match l !! i with
  | Some x => Return x
  | None => Raise IndexError
  end.

(** [d[k]] on a dictionary *)
Definition getitem {V} (d : gmap string V) (k : string) : outcome V :=
  match d !! k with
  | Some v => Return v
  | None => Raise KeyError
  end.

(** Use of a dictionary value where the code needs an [int] (a comparison
    with an [int], an addition to [message], a key of a registry). *)
Definition as_int (v : pyval) : outcome Z :=
  match v with
  | VInt z => Return z
  | VList _ => Raise TypeError
  end.

(** Use of a dictionary value where the code needs a list
    ([len(data['OPC'])], [for values in data['OPC']]). *)
Definition as_list (v : pyval) : outcome (list (gmap string Z)) :=
  match v with
  | VList l => Return l
  | VInt _ => Raise TypeError
  end.

(** ** The frame encoder *)

Section Encoder.

(** The registries of [eojx] and [esv]: dictionaries keyed by code, of
    which the encoder only uses the keys. [eojx.CLASS] maps a group code
    to the dictionary of its class codes. *)
Variable eojx_GROUP : gset Z.
Variable eojx_CLASS : gmap Z (gset Z).
Variable esv_CODES : gset Z.

(** One pass of [for values in data['OPC']]. *)
Definition encode_property (message : Z) (values : gmap string Z) : outcome Z :=
  epc <- getitem values "EPC" ;;
  let message := Z.shiftl message 8 + epc in
  match values !! "PDC" with
  | Some pdc =>
      let message := Z.shiftl message 8 + pdc in
      if pdc >? 0 then
        edt <- getitem values "EDT" ;;
        Return (Z.shiftl message (8 * pdc) + edt)
      else Return message
  | None => Return (Z.shiftl message 8 + 0x00)
  end.

Fixpoint encode_properties (message : Z) (opc : list (gmap string Z)) : outcome Z :=
  match opc with
  | [] => Return message
  | values :: rest =>
      message <- encode_property message values ;;
      encode_properties message rest
  end.

(** The [if]/[elif] on ['TID'], the only place that writes to [data]:
    the dictionary after it, and whether the [ValueError] was raised. *)
Definition validate_TID (data : gmap string pyval) : gmap string pyval * outcome unit :=
  match data !! "TID" with
  | None => (<["TID" := VInt 0x01]> data, Return tt)
  | Some v =>
      (data,
       tid <- as_int v ;;
       if tid >? 0xFFFF
       then Raise (ValueError "Transaction ID is larger then 2 bytes.")
       else Return tt)
  end.

(** The body of the [try] after the check of ['TID'], reading [data] as
    that check left it. *)
Definition build_message (data : gmap string pyval) : outcome string :=
  let message := 0x1081 in
  tid <- (v <- getitem data "TID" ;; as_int v) ;;
  let message := Z.shiftl message 16 + tid in
  let message := Z.shiftl message 24 + 0x05FF01 in
  gc <- (v <- getitem data "DEOJGC" ;; as_int v) ;;
  message <-
    (if decide (gc ∈ eojx_GROUP) then Return (Z.shiftl message 8 + gc)
     else Raise (ValueError ("Value " ++ hex gc ++ " not a valid SEO Group code"))) ;;
  cc <- getitem data "DEOJCC" ;;
  classes <-
    match eojx_CLASS !! gc with
    | Some classes => Return classes
    | None => Raise KeyError
    end ;;
  cc <- as_int cc ;;
  message <-
    (if decide (cc ∈ classes) then Return (Z.shiftl message 8 + cc)
     else Raise (ValueError ("Value " ++ hex cc ++ " not a valid SEO class code"))) ;;
  ic <- (v <- getitem data "DEOJIC" ;; as_int v) ;;
  let message := Z.shiftl message 8 + ic in
  esv <- (v <- getitem data "ESV" ;; as_int v) ;;
  message <-
    (if decide (esv ∈ esv_CODES) then Return (Z.shiftl message 8 + esv)
     else Raise (ValueError "Value not in ESV code table")) ;;
  opc <- (v <- getitem data "OPC" ;; as_list v) ;;
  let message := Z.shiftl message 8 + Z.of_nat (length opc) in
  message <- encode_properties message opc ;;
  Return (format_x message).

(** [BuildEchonetMsg(data)]: the caller's dictionary as the call leaves
    it, and how the call ends. *)
Definition BuildEchonetMsg (data : gmap string pyval)
  : gmap string pyval * outcome string :=
  let '(data, checked) := validate_TID data in
  (data, except_ValueError_quit (checked ;;; build_message data)).

End Encoder.

(** ** The frame decoder *)

(** One entry of [data['OPC']] as the decoder builds it. *)
Record property := mkProperty {
  EPC : Z;
  PDC : Z;
  EDT : list byte
}.

(** The dictionary the decoder returns. Its keys are fixed, so it is a
    record; ['instance'] is the key [Discover] adds to it afterwards. *)
Record frame := mkFrame {
  EHD1 : Z;
  EHD2 : Z;
  TID : Z;
  SEOJGC : Z;
  SEOJCC : Z;
  SEOJIC : Z;
  DEOJGC : Z;
  DEOJCC : Z;
  DEOJIC : Z;
  ESV : Z;
  OPC : list property;
  instance : option Z
}.

Section Decoder.

(** The header registries of [epc], of which only the keys are used. *)
Variable epc_EHD1 : gset Z.
Variable epc_EHD2 : gset Z.

(** The passes of [while i < byte[11]] that are left to run: [byte] does
    not change and [i] grows by one each pass, so [remaining] is
    [byte[11] - i]. [OPC] is [data['OPC']] so far. *)
Fixpoint decode_properties (byte : list byte) (remaining : nat)
    (epc_pointer : nat) (OPC : list property) : outcome (list property) :=
  match remaining with
  | O => Return OPC
  | S remaining' =>
      let pdc_pointer := (epc_pointer + 1)%nat in
      let edt_pointer := (pdc_pointer + 1)%nat in
      let end_pointer := edt_pointer in
      epc <- index byte epc_pointer ;;
      pdc <- index byte pdc_pointer ;;
      pdc_len <- index byte pdc_pointer ;;
      let end_pointer := (end_pointer + Z.to_nat (byte_val pdc_len))%nat in
      let edt := slice byte edt_pointer end_pointer in
      let epc_pointer := end_pointer in
      decode_properties byte remaining' epc_pointer
        (OPC ++ [mkProperty (byte_val epc) (byte_val pdc) edt])
  end.

(** The body of the [try]. *)
Definition decode_frame (byte : list byte) : outcome frame :=
  ehd1 <- index byte 0 ;;
  (if decide (byte_val ehd1 ∈ epc_EHD1) then Return tt
   else Raise (ValueError "EHD1 Header invalid")) ;;;
  ehd2 <- index byte 1 ;;
  (if decide (byte_val ehd2 ∈ epc_EHD2) then Return tt
   else Raise (ValueError "EHD2 Header invalid")) ;;;
  let tid := int_from_bytes_big (slice byte 2 4) in
  seojgc <- index byte 4 ;;
  seojcc <- index byte 5 ;;
  seojic <- index byte 6 ;;
  deojgc <- index byte 7 ;;
  deojcc <- index byte 8 ;;
  deojic <- index byte 9 ;;
  esv <- index byte 10 ;;
  count <- index byte 11 ;;
  opc <- decode_properties byte (Z.to_nat (byte_val count)) 12 [] ;;
  Return (mkFrame (byte_val ehd1) (byte_val ehd2) tid
            (byte_val seojgc) (byte_val seojcc) (byte_val seojic)
            (byte_val deojgc) (byte_val deojcc) (byte_val deojic)
            (byte_val esv) opc None).

(** [DecodeEchonetMsg(byte)] *)
Definition DecodeEchonetMsg (byte : list byte) : outcome frame :=
  except_ValueError_quit (decode_frame byte).

End Decoder.

(** ** Transport and discovery *)

(** One element of the list [SendMessage] returns:
    [{'server': (host, port), 'payload': bytes}]. *)
Record reply := mkReply {
  server : string * Z;
  payload : list byte
}.

(** The socket loop of [SendMessage]: [incoming] are the datagrams that
    [recvfrom] yields before its first [socket.timeout], in arrival order;
    the timeout leaves the loop with [break]. *)
Fixpoint receive_all (incoming : list (list byte * (string * Z)))
    (data : list reply) : list reply :=
  match incoming with
  | [] => data
  | (payload, server) :: later =>
      receive_all later (data ++ [mkReply server payload])
  end.

(** [SendMessage(message, ip_address)] on a socket whose calls succeed.
    [bytearray.fromhex] runs before the loop and its [ValueError] is not
    caught here. *)
Definition SendMessage (incoming : list (list byte * (string * Z)))
    (message : string) (ip_address : string) : outcome (list reply) :=
  fromhex message ;;;
  Return (receive_all incoming []).

Definition ENL_MULTICAST_ADDRESS : string := "224.0.23.0".

(** What the property function of [epc.CODE] returns to [Discover]: a
    dictionary read at ['eojgc'], ['eojcc'] and ['eojci']. *)
Record identity := mkIdentity {
  eojgc : Z;
  eojcc : Z;
  eojci : Z
}.

(** [rx['instance'] = i] *)
Definition set_instance (rx : frame) (i : Z) : frame :=
  mkFrame (EHD1 rx) (EHD2 rx) (TID rx) (SEOJGC rx) (SEOJCC rx)
    (SEOJIC rx) (DEOJGC rx) (DEOJCC rx) (DEOJIC rx) (ESV rx)
    (OPC rx) (Some i).

(** [v == z] for a dictionary value and an [int] *)
Definition pyval_eqb (v : pyval) (z : Z) : bool :=
  match v with
  | VInt x => x =? z
  | VList _ => false
  end.

Section Discovery.

Variable eojx_GROUP : gset Z.
Variable eojx_CLASS : gmap Z (gset Z).
Variable esv_CODES : gset Z.
Variable epc_EHD1 : gset Z.
Variable epc_EHD2 : gset Z.

(** The objects [Discover] collects. *)
Variable Device : Type.

(** [epc.CODE[gc][cc][epc][1]], absent when one of the three keys is. *)
Variable epc_CODE_property : Z -> Z -> Z -> option (list byte -> outcome identity).

(** [epc.CODE[gc][cc]['class']], absent when one of the keys is. *)
Variable epc_CODE_class : Z -> Z -> option (frame -> string -> outcome Device).

Definition tx_payload : gmap string pyval :=
  <["TID" := VInt 0x01]> (<["DEOJGC" := VInt 0x0E]> (<["DEOJCC" := VInt 0xF0]>
  (<["DEOJIC" := VInt 0x00]> (<["ESV" := VInt 0x62]>
  (<["OPC" := VList [ {["EPC" := 0xD6]} ]]> ∅))))).

(** The body of [for node in data] for one [node]: the device to append
    to [eoa], if the reply passes the filter. *)
Definition discover_node (tx_payload : gmap string pyval) (node : reply)
  : outcome (option Device) :=
  rx <- DecodeEchonetMsg epc_EHD1 epc_EHD2 (payload node) ;;
  deojgc <- getitem tx_payload "DEOJGC" ;;
  if negb (pyval_eqb deojgc (SEOJGC rx)) then Return None else
  tid <- getitem tx_payload "TID" ;;
  if negb (pyval_eqb tid (TID rx)) then Return None else
  opc0 <- index (OPC rx) 0 ;;
  if negb (EPC opc0 =? 0xd6) then Return None else
  decode <-
    match epc_CODE_property (SEOJGC rx) (SEOJCC rx) (EPC opc0) with
    | Some f => Return f
    | None => Raise KeyError
    end ;;
  edt <- decode (EDT opc0) ;;
  let rx := set_instance rx (eojci edt) in
  construct <-
    match epc_CODE_class (eojgc edt) (eojcc edt) with
    | Some c => Return c
    | None => Raise KeyError
    end ;;
  e <- construct rx (fst (server node)) ;;
  Return (Some e).

Fixpoint discover_nodes (tx_payload : gmap string pyval) (data : list reply)
    (eoa : list Device) : outcome (list Device) :=
  match data with
  | [] => Return eoa
  | node :: later =>
      found <- discover_node tx_payload node ;;
      discover_nodes tx_payload later
        (match found with Some e => eoa ++ [e] | None => eoa end)
  end.

(** [Discover()], given the datagrams the socket will yield. *)
Definition Discover (incoming : list (list byte * (string * Z)))
  : outcome (list Device) :=
  let eoa := [] in
  let '(tx_payload, built) :=
    BuildEchonetMsg eojx_GROUP eojx_CLASS esv_CODES tx_payload in
  message <- built ;;
  data <- SendMessage incoming message ENL_MULTICAST_ADDRESS ;;
  discover_nodes tx_payload data eoa.

End Discovery.

(** ** A concrete environment

    Registries that hold the codes of the discovery exchange, with a second
    group and class, for running the definitions on examples. *)

Definition sample_GROUP : gset Z := {[ 0x0E; 0x01 ]}.
Definition sample_CLASS : gmap Z (gset Z) :=
  <[0x0E := {[ 0xF0 ]}]> (<[0x01 := {[ 0x30; 0x35 ]}]> ∅).
Definition sample_CODES : gset Z := {[ 0x60; 0x61; 0x62; 0x72 ]}.
Definition sample_EHD1 : gset Z := {[ 0x10 ]}.
Definition sample_EHD2 : gset Z := {[ 0x81; 0x82 ]}.

(** A property function that reads the instance list of a node profile:
    count, then group, class and instance of the first object. *)
Definition node_profile_instances (edt : list byte) : outcome identity :=
  g <- index edt 1 ;; c <- index edt 2 ;; i <- index edt 3 ;;
  Return (mkIdentity (byte_val g) (byte_val c) (byte_val i)).

Definition sample_property (gc cc epc : Z)
  : option (list byte -> outcome identity) :=
  if (gc =? 0x0E) && (cc =? 0xF0) && (epc =? 0xD6)
  then Some node_profile_instances else None.

(** A constructor that keeps the frame and the address it came from. *)
Definition keep_frame (rx : frame) (ip : string) : outcome (frame * string) :=
  Return (rx, ip).

Definition sample_class (gc cc : Z)
  : option (frame -> string -> outcome (frame * string)) :=
  if (gc =? 0x01) && (cc =? 0x30) then Some keep_frame else None.

(** Three properties: a payload of one byte, a payload of three bytes that
    starts with a zero byte, and no payload; and a request that holds them. *)
Definition sample_properties : list (gmap string Z) :=
  [ <["EPC" := 0x80]> (<["PDC" := 1]> {["EDT" := 0x30]});
    <["EPC" := 0xB3]> (<["PDC" := 3]> {["EDT" := 0x000102]});
    {["EPC" := 0xD6]} ].

Definition sample_request : gmap string pyval :=
  <["TID" := VInt 0x1234]> (<["DEOJGC" := VInt 0x01]> (<["DEOJCC" := VInt 0x30]>
  (<["DEOJIC" := VInt 0x01]> (<["ESV" := VInt 0x61]>
  (<["OPC" := VList sample_properties]> ∅))))).

(** The request of [Discover] with a transaction id of three bytes. *)
Definition oversized_request : gmap string pyval :=
  <["TID" := VInt 0x10000]> tx_payload.

(** A reply to the discovery request whose one property declares five
    payload bytes and carries two. *)
Definition reply_header : list byte :=
  [x10; x81; x00; x01; x0e; xf0; x01; x05; xff; x01; x72].

Definition cut_reply : list byte :=
  reply_header ++ [x01; xd6; x05; x01; x02].

(** Replies to the discovery request: one from a node profile that
    announces the object [01 30 01], the same with another transaction id,
    one that announces an object of a class without constructor, and a
    datagram that does not start with a registered header byte. *)
Definition matching_reply : list byte :=
  reply_header ++ [x01; xd6; x04; x01; x01; x30; x01].

Definition other_TID_reply : list byte :=
  [x10; x81; x00; x02; x0e; xf0; x01; x05; xff; x01; x72;
   x01; xd6; x04; x01; x01; x30; x01].

Definition unknown_class_reply : list byte :=
  reply_header ++ [x01; xd6; x04; x01; x02; x7f; x01].

Definition foreign_datagram : list byte :=
  [x47; x45; x54; x20; x2f; x20; x48; x54; x54; x50; x2f; x31; x2e; x31].

Definition node_a : string * Z := ("192.168.1.5"%string, 3610).
Definition node_b : string * Z := ("192.168.1.6"%string, 3610).

(** The frames of [matching_reply] and [other_TID_reply], and the device
    [sample_class] makes of [matching_reply] sent by [node_a]. *)
Definition instance_list : property := mkProperty 0xD6 4 [x01; x01; x30; x01].

Definition matching_frame : frame :=
  mkFrame 0x10 0x81 0x01 0x0E 0xF0 0x01 0x05 0xFF 0x01 0x72 [instance_list] None.

Definition other_TID_frame : frame :=
  mkFrame 0x10 0x81 0x02 0x0E 0xF0 0x01 0x05 0xFF 0x01 0x72 [instance_list] None.

Definition matching_device : frame * string :=
  (mkFrame 0x10 0x81 0x01 0x0E 0xF0 0x01 0x05 0xFF 0x01 0x72
     [instance_list] (Some 0x01),
   "192.168.1.5"%string).

(** The request of [Discover] with a second property that declares two
    payload bytes and has no ['EDT'], and the same request with the
    transaction id [-1]. *)
Definition incomplete_request : gmap string pyval :=
  <["OPC" := VList [ {["EPC" := 0xD6]}; <["EPC" := 0x81]> {["PDC" := 2]} ]]> tx_payload.

Definition negative_TID_request : gmap string pyval :=
  <["TID" := VInt (-1)]> tx_payload.

(** A reply from a node profile that declares no property, and its frame. *)
Definition empty_reply : list byte := reply_header ++ [x00].

Definition empty_frame : frame :=
  mkFrame 0x10 0x81 0x01 0x0E 0xF0 0x01 0x05 0xFF 0x01 0x72 [] None.

(** The request of [Discover] with the instance code [0x101]. *)
Definition wide_instance_request : gmap string pyval :=
  <["DEOJIC" := VInt 0x101]> tx_payload.

Definition sample_Discover :=
  Discover sample_GROUP sample_CLASS sample_CODES sample_EHD1 sample_EHD2
    (frame * string) sample_property sample_class.

Definition sample_node :=
  discover_node sample_EHD1 sample_EHD2 (frame * string)
    sample_property sample_class tx_payload.

(** ** Vocabulary of the statements *)

(** [z.to_bytes(n, 'big')] *)
Fixpoint int_to_bytes_big (n : nat) (z : Z) : list byte :=
  match n with
  | O => []
  | S k => int_to_bytes_big k (z / 256) ++ [byte_of_Z (z mod 256)]
  end.

Definition is_byte (z : Z) : bool := (0 <=? z) && (z <? 256).

(** A property dictionary whose fields fit the wire format: a code of one
    byte and either no payload (no ['EDT'], and ['PDC'] absent or [0]) or a
    payload ['EDT'] that fits in the ['PDC'] bytes it declares. *)
Definition well_formed_property (values : gmap string Z) : bool :=
  match values !! "EPC" with
  | None => false
  | Some epc =>
      is_byte epc &&
      match values !! "PDC", values !! "EDT" with
      | None, None => true
      | Some pdc, None => pdc =? 0
      | Some pdc, Some edt =>
          (0 <? pdc) && (pdc <? 256) && (0 <=? edt) && (edt <? 256 ^ pdc)
      | None, Some _ => false
      end
  end.

(** The declared length of a property dictionary, [0] without ['PDC']. *)
Definition declared_length (values : gmap string Z) : Z :=
  default 0 (values !! "PDC").

(** The payload of a property dictionary as bytes: ['EDT'] on ['PDC']
    bytes, most significant first. *)
Definition payload_bytes (values : gmap string Z) : list byte :=
  match values !! "PDC", values !! "EDT" with
  | Some pdc, Some edt => int_to_bytes_big (Z.to_nat pdc) edt
  | _, _ => []
  end.

(** The transaction id of a request, [1] when it has none. *)
Definition request_TID (data : gmap string pyval) : Z :=
  match data !! "TID" with
  | Some (VInt tid) => tid
  | _ => 0x01
  end.

Section Requests.

Variable eojx_GROUP : gset Z.
Variable eojx_CLASS : gmap Z (gset Z).
Variable esv_CODES : gset Z.

(** [cc] is a class code of group [gc] in [eojx.CLASS]. *)
Definition class_registered (gc cc : Z) : Prop :=
  ∃ classes, eojx_CLASS !! gc = Some classes ∧ cc ∈ classes.

Definition class_registeredb (gc cc : Z) : bool :=
  match eojx_CLASS !! gc with
  | Some classes => bool_decide (cc ∈ classes)
  | None => false
  end.

(** A request that satisfies the invariants of the frame: a transaction
    id of 16 bits if any, a registered destination group and class, a
    registered service code, fields of one byte, at most 255 well-formed
    property dictionaries. *)
Definition well_formed_request (data : gmap string pyval) : bool :=
  match data !! "TID" with
  | None => true
  | Some (VInt tid) => (0 <=? tid) && (tid <=? 0xFFFF)
  | Some (VList _) => false
  end &&
  match data !! "DEOJGC", data !! "DEOJCC", data !! "DEOJIC",
        data !! "ESV", data !! "OPC" with
  | Some (VInt gc), Some (VInt cc), Some (VInt ic),
    Some (VInt esv), Some (VList opc) =>
      is_byte gc && bool_decide (gc ∈ eojx_GROUP) &&
      is_byte cc && class_registeredb gc cc &&
      is_byte ic &&
      is_byte esv && bool_decide (esv ∈ esv_CODES) &&
      (Z.of_nat (length opc) <=? 255) &&
      forallb well_formed_property opc
  | _, _, _, _, _ => false
  end.

(** A request whose header fields are all there and are [int]s (['TID']
    may be absent): the requests on which every check of the encoder
    runs. *)
Definition header_fields (data : gmap string pyval) (tid gc cc ic esv : Z) : Prop :=
  (data !! "TID" = None ∧ tid = 0x01 ∨ data !! "TID" = Some (VInt tid)) ∧
  data !! "DEOJGC" = Some (VInt gc) ∧
  data !! "DEOJCC" = Some (VInt cc) ∧
  data !! "DEOJIC" = Some (VInt ic) ∧
  data !! "ESV" = Some (VInt esv).

(** The codes of the discovery request are registered. *)
Definition discovery_registered : Prop :=
  0x0E ∈ eojx_GROUP ∧ class_registered 0x0E 0xF0 ∧ 0x62 ∈ esv_CODES.

End Requests.

(** A decoded entry reproduces a property dictionary of the request. *)
Definition property_matches (values : gmap string Z) (p : property) : Prop :=
  values !! "EPC" = Some (EPC p) ∧
  PDC p = declared_length values ∧
  Z.of_nat (length (EDT p)) = declared_length values ∧
  EDT p = payload_bytes values.

(** A decoded frame reproduces a request. *)
Definition frame_matches (data : gmap string pyval) (rx : frame) : Prop :=
  EHD1 rx = 0x10 ∧ EHD2 rx = 0x81 ∧
  TID rx = request_TID data ∧
  (SEOJGC rx, SEOJCC rx, SEOJIC rx) = (0x05, 0xFF, 0x01) ∧
  data !! "DEOJGC" = Some (VInt (DEOJGC rx)) ∧
  data !! "DEOJCC" = Some (VInt (DEOJCC rx)) ∧
  data !! "DEOJIC" = Some (VInt (DEOJIC rx)) ∧
  data !! "ESV" = Some (VInt (ESV rx)) ∧
  ∃ opc, data !! "OPC" = Some (VList opc) ∧
         length (OPC rx) = length opc ∧
         Forall2 property_matches opc (OPC rx).

(** The bytes of one complete property entry on the wire. *)
Definition entry_bytes (e : byte * list byte) : list byte :=
  e.1 :: byte_of_Z (Z.of_nat (length e.2)) :: e.2.

(** The entry the decoder builds from a complete entry on the wire. *)
Definition entry_property (e : byte * list byte) : property :=
  mkProperty (byte_val e.1) (Z.of_nat (length e.2)) e.2.

(** The frame the decoder builds from the first eleven bytes and the
    properties that follow. *)
Definition header_frame (h : list byte) (opc : list property) : frame :=
  mkFrame (byte_val (nth 0 h x00)) (byte_val (nth 1 h x00))
    (int_from_bytes_big (slice h 2 4))
    (byte_val (nth 4 h x00)) (byte_val (nth 5 h x00)) (byte_val (nth 6 h x00))
    (byte_val (nth 7 h x00)) (byte_val (nth 8 h x00)) (byte_val (nth 9 h x00))
    (byte_val (nth 10 h x00)) opc None.

(** The big-endian value of [bs] appended to the digits of [acc]. *)
Definition be_acc (acc : Z) (bs : list byte) : Z :=
  fold_left (fun acc b => acc * 256 + byte_val b) bs acc.

(** The two base-16 digits of each byte of [bs]. *)
Definition hex_pairs (bs : list byte) : list Z :=
  flat_map (fun b => [byte_val b / 16; byte_val b mod 16]) bs.

(** The digits of [format(n, 'x')], for [n > 0]. *)
Definition digits (n : Z) : list Z :=
  hex_digits (S (Z.to_nat (Z.log2 n))) n.

(** The entry a well-formed property dictionary puts on the wire. *)
Definition request_entry (values : gmap string Z) : byte * list byte :=
  (byte_of_Z (default 0 (values !! "EPC")), payload_bytes values).

(** The frame of a request with the given header fields and properties. *)
Definition wire_header (tid gc cc ic esv : Z) : list byte :=
  [x10; x81] ++ int_to_bytes_big 2 tid ++
  [x05; xff; x01; byte_of_Z gc; byte_of_Z cc; byte_of_Z ic; byte_of_Z esv].

Definition wire_bytes (tid gc cc ic esv : Z) (opc : list (gmap string Z)) : list byte :=
  wire_header tid gc cc ic esv ++
  byte_of_Z (Z.of_nat (length opc)) ::
  flat_map entry_bytes (map request_entry opc).

(** The bytes the properties of a request take on the wire: a code, a
    length and the payload each. *)
Definition entries_size (opc : list (gmap string Z)) : nat :=
  sum_list_with (fun values => 2 + length (payload_bytes values))%nat opc.

(** The element of [data] that [SendMessage] makes of a datagram. *)
Definition node_of (datagram : list byte * (string * Z)) : reply :=
  mkReply datagram.2 datagram.1.


(** A property dictionary that lacks a key the encoder will index: no
    ['EPC'], or a positive ['PDC'] without ['EDT']. *)
Definition incomplete_property (values : gmap string Z) : bool :=
  match values !! "EPC" with
  | None => true
  | Some _ =>
      match values !! "PDC", values !! "EDT" with
      | Some pdc, None => 0 <? pdc
      | _, _ => false
      end
  end.

(** A property dictionary with the defaults of the encoder written out:
    ['PDC'] = 0 when there is none, and no ['EDT'] unless ['PDC'] is
    positive. *)
Definition normalize_property (values : gmap string Z) : gmap string Z :=
  match values !! "PDC" with
  | None => <["PDC" := 0]> (delete "EDT" values)
  | Some pdc => if 0 <? pdc then values else delete "EDT" values
  end.

(** Two property dictionaries that stand for the same entry of a frame. *)
Definition same_entry (v1 v2 : gmap string Z) : Prop :=
  v1 !! "EPC" = v2 !! "EPC" ∧
  declared_length v1 = declared_length v2 ∧
  payload_bytes v1 = payload_bytes v2.

(** What the decoder guarantees of an entry it returns. *)
Definition property_in_range (p : property) : Prop :=
  0 <= EPC p < 256 ∧ 0 <= PDC p < 256 ∧ Z.of_nat (length (EDT p)) <= PDC p.

(** An entry whose payload has all the bytes its length byte declares. *)
Definition property_complete (p : property) : Prop :=
  Z.of_nat (length (EDT p)) = PDC p.

(** What the decoder guarantees of the header fields it returns. *)
Definition header_in_range (rx : frame) : Prop :=
  0 <= EHD1 rx < 256 ∧ 0 <= EHD2 rx < 256 ∧ 0 <= TID rx <= 0xFFFF ∧
  0 <= SEOJGC rx < 256 ∧ 0 <= SEOJCC rx < 256 ∧ 0 <= SEOJIC rx < 256 ∧
  0 <= DEOJGC rx < 256 ∧ 0 <= DEOJCC rx < 256 ∧ 0 <= DEOJIC rx < 256 ∧
  0 <= ESV rx < 256 ∧ instance rx = None.

(** The decoded replies that the filter of [Discover] drops without
    looking further: another source group, another transaction id, or
    another first property code. *)
Definition filtered_out (rx : frame) : Prop :=
  SEOJGC rx ≠ 0x0E ∨ TID rx ≠ 0x01 ∨
  ∃ p rest, OPC rx = p :: rest ∧ EPC p ≠ 0xD6.

(** The number [message] holds once the service code is appended, for a
    request whose checks pass. *)
Definition header_message (tid gc cc ic esv : Z) : Z :=
  Z.shiftl (Z.shiftl (Z.shiftl (Z.shiftl
    (Z.shiftl (Z.shiftl 0x1081 16 + tid) 24 + 0x05FF01) 8 + gc) 8 + cc) 8 + ic)
    8 + esv.

(** ** Properties *)

(** *** Bytes and integers *)

Lemma byte_val_range (b : byte) : 0 <= byte_val b < 256.
Proof.
  unfold byte_val. pose proof (Byte.to_N_bounded b). lia.
Qed.

Lemma byte_of_Z_val (b : byte) : byte_of_Z (byte_val b) = b.
Proof.
  unfold byte_of_Z, byte_val. by rewrite N2Z.id, Byte.of_to_N.
Qed.

Lemma byte_val_of_Z (z : Z) : 0 <= z < 256 -> byte_val (byte_of_Z z) = z.
Proof.
  intros Hz. unfold byte_of_Z, byte_val.
  destruct (Byte.of_N (Z.to_N z)) as [b|] eqn:E.
  - apply Byte.to_of_N in E. rewrite E. lia.
  - apply Byte.of_N_None_iff in E. lia.
Qed.

Lemma is_byte_range (z : Z) : is_byte z = true -> 0 <= z < 256.
Proof. unfold is_byte. lia. Qed.

Lemma be_acc_app acc bs1 bs2 :
  be_acc acc (bs1 ++ bs2) = be_acc (be_acc acc bs1) bs2.
Proof. unfold be_acc. apply fold_left_app. Qed.

Lemma be_acc_shift acc bs :
  be_acc acc bs = acc * 256 ^ Z.of_nat (length bs) + be_acc 0 bs.
Proof.
  revert acc. induction bs as [|b bs IH] using rev_ind; intros acc.
  - simpl. lia.
  - rewrite !be_acc_app, length_app, Nat2Z.inj_add, Z.pow_add_r by lia.
    simpl. rewrite IH. change (256 ^ Z.of_nat 1) with 256. lia.
Qed.

Lemma be_acc_bounds bs : 0 <= be_acc 0 bs < 256 ^ Z.of_nat (length bs).
Proof.
  induction bs as [|b bs IH] using rev_ind.
  - simpl. lia.
  - rewrite be_acc_app, length_app, Nat2Z.inj_add, Z.pow_add_r by lia.
    simpl. change (256 ^ Z.of_nat 1) with 256.
    pose proof (byte_val_range b). lia.
Qed.

Lemma length_int_to_bytes_big n z : length (int_to_bytes_big n z) = n.
Proof.
  revert z. induction n as [|n IH]; intros z; simpl; [done|].
  rewrite length_app, IH. simpl. lia.
Qed.

Lemma be_acc_int_to_bytes_big n z :
  0 <= z < 256 ^ Z.of_nat n -> be_acc 0 (int_to_bytes_big n z) = z.
Proof.
  revert z. induction n as [|n IH]; intros z Hz.
  - simpl in *. lia.
  - simpl int_to_bytes_big. rewrite be_acc_app, IH.
    + simpl. rewrite byte_val_of_Z by (apply Z.mod_pos_bound; lia).
      pose proof (Z.div_mod z 256). lia.
    + rewrite Nat2Z.inj_succ, Z.pow_succ_r in Hz by lia.
      split; [apply Z.div_pos; lia|].
      apply Z.div_lt_upper_bound; lia.
Qed.

(** Payload bytes survive the passage through an integer, leading zero
    bytes included, because the number of bytes is kept beside it. *)
Lemma int_to_bytes_big_from_bytes bs :
  int_to_bytes_big (length bs) (int_from_bytes_big bs) = bs.
Proof.
  change (int_from_bytes_big bs) with (be_acc 0 bs).
  induction bs as [|b bs IH] using rev_ind; [done|].
  rewrite length_app, Nat.add_comm. simpl length. simpl int_to_bytes_big.
  rewrite be_acc_app. simpl.
  pose proof (byte_val_range b).
  replace ((be_acc 0 bs * 256 + byte_val b) / 256) with (be_acc 0 bs)
    by (apply Z.div_unique with (byte_val b); lia).
  replace ((be_acc 0 bs * 256 + byte_val b) mod 256) with (byte_val b)
    by (apply Z.mod_unique with (be_acc 0 bs); lia).
  by rewrite IH, byte_of_Z_val.
Qed.

(** *** Hexadecimal text *)

Example format_x_frame :
  format_x 0x1081000105ff010ef0006201d600 = "1081000105ff010ef0006201d600"%string
  /\ format_x 0 = "0"%string /\ format_x (-255) = "-ff"%string
  /\ hex 14 = "0xe"%string.
Proof. by vm_compute. Qed.

Example fromhex_cases :
  fromhex "10 81 0A" = Return [x10; x81; x0a]
  /\ fromhex "108" = Raise (ValueError "non-hexadecimal number found in fromhex() arg")
  /\ fromhex "-ff" = Raise (ValueError "non-hexadecimal number found in fromhex() arg").
Proof. by vm_compute. Qed.

Lemma hex_digits_zero fuel n : n <= 0 -> hex_digits fuel n = [].
Proof.
  intros Hn. destruct fuel as [|f]; simpl; [done|].
  destruct (n <=? 0) eqn:E; [done | lia].
Qed.

(** Fuel beyond the number of digits changes nothing. *)
Lemma hex_digits_fuel f : forall n f',
  n < 16 ^ Z.of_nat f -> (f <= f')%nat -> hex_digits f' n = hex_digits f n.
Proof.
  induction f as [|f IH]; intros n f' Hn Hf.
  - rewrite !hex_digits_zero; [done | simpl in Hn; lia | simpl in Hn; lia].
  - destruct f' as [|f']; [lia|]. simpl.
    destruct (n <=? 0) eqn:E; [done|]. f_equal.
    apply IH; [|lia].
    rewrite Nat2Z.inj_succ, Z.pow_succ_r in Hn by lia.
    apply Z.div_lt_upper_bound; lia.
Qed.

Lemma log2_fuel n : 0 < n -> n < 16 ^ Z.of_nat (S (Z.to_nat (Z.log2 n))).
Proof.
  intros Hn. pose proof (Z.log2_spec n Hn) as [_ Hlt].
  pose proof (Z.log2_nonneg n).
  rewrite Nat2Z.inj_succ, Z2Nat.id by lia.
  eapply Z.lt_le_trans; [exact Hlt|].
  apply Z.pow_le_mono_l. lia.
Qed.

Lemma digits_step n d :
  0 < n -> 0 <= d < 16 -> digits (16 * n + d) = digits n ++ [d].
Proof.
  intros Hn Hd. unfold digits at 1. simpl.
  destruct (16 * n + d <=? 0) eqn:E; [lia|].
  replace ((16 * n + d) / 16) with n
    by (apply Z.div_unique with d; lia).
  replace ((16 * n + d) mod 16) with d
    by (apply Z.mod_unique with n; lia).
  f_equal. unfold digits. apply hex_digits_fuel; [by apply log2_fuel|].
  pose proof (Z.log2_nonneg n).
  pose proof (Z.log2_le_mono (n * 2 ^ 4) (16 * n + d)) as Hmono.
  rewrite Z.log2_mul_pow2 in Hmono by lia.
  change (2 ^ 4) with 16 in Hmono. lia.
Qed.

Lemma digits_small d : 0 < d < 16 -> digits d = [d].
Proof.
  intros Hd. unfold digits. simpl.
  destruct (d <=? 0) eqn:E; [lia|].
  rewrite Z.div_small, Z.mod_small by lia.
  by rewrite hex_digits_zero.
Qed.

Lemma digits_byte acc b :
  0 < acc -> digits (acc * 256 + byte_val b)
             = digits acc ++ [byte_val b / 16; byte_val b mod 16].
Proof.
  intros Hacc. pose proof (byte_val_range b) as Hb.
  pose proof (Z.div_mod (byte_val b) 16).
  pose proof (Z.mod_pos_bound (byte_val b) 16).
  assert (0 <= byte_val b / 16 < 16)
    by (split; [apply Z.div_pos | apply Z.div_lt_upper_bound]; lia).
  replace (acc * 256 + byte_val b)
    with (16 * (16 * acc + byte_val b / 16) + byte_val b mod 16) by lia.
  rewrite !digits_step by lia. by rewrite <- app_assoc.
Qed.

(** The digits of a byte string read as one number: two per byte, as long
    as the number so far is positive. *)
Lemma digits_be_acc bs : forall acc,
  0 < acc -> digits (be_acc acc bs) = digits acc ++ hex_pairs bs.
Proof.
  induction bs as [|b bs IH]; intros acc Hacc; simpl.
  - by rewrite app_nil_r.
  - change (be_acc acc (b :: bs)) with (be_acc (acc * 256 + byte_val b) bs).
    pose proof (byte_val_range b).
    rewrite IH, digits_byte by lia. by rewrite <- app_assoc.
Qed.

Lemma be_acc_pos bs : forall acc, 0 < acc -> 0 < be_acc acc bs.
Proof.
  induction bs as [|b bs IH]; intros acc Hacc; [done|].
  change (be_acc acc (b :: bs)) with (be_acc (acc * 256 + byte_val b) bs).
  pose proof (byte_val_range b). apply IH. lia.
Qed.

(** A byte string whose first byte is [0x10] or more, read as one number
    and written with [format(_, 'x')], shows two digits for every byte. *)
Lemma format_x_be_acc b bs :
  16 <= byte_val b ->
  format_x (be_acc 0 (b :: bs)) = string_of_digits (hex_pairs (b :: bs)).
Proof.
  intros Hb. pose proof (byte_val_range b).
  change (be_acc 0 (b :: bs)) with (be_acc (0 * 256 + byte_val b) bs).
  rewrite Z.mul_0_l, Z.add_0_l.
  pose proof (be_acc_pos bs (byte_val b)).
  unfold format_x, format_x_nonneg.
  destruct (be_acc (byte_val b) bs <? 0) eqn:E1; [lia|].
  destruct (be_acc (byte_val b) bs =? 0) eqn:E2; [lia|].
  fold (digits (be_acc (byte_val b) bs)).
  rewrite digits_be_acc by lia. f_equal. simpl. f_equal.
  pose proof (Z.div_mod (byte_val b) 16).
  pose proof (Z.mod_pos_bound (byte_val b) 16).
  assert (0 < byte_val b / 16 < 16)
    by (split; [apply Z.div_str_pos | apply Z.div_lt_upper_bound]; lia).
  replace (byte_val b) with (16 * (byte_val b / 16) + byte_val b mod 16) at 1 by lia.
  rewrite digits_step, digits_small by lia. done.
Qed.

Lemma hex_digit_inv d :
  0 <= d < 16 ->
  is_space (hex_digit d) = false /\ hex_value (hex_digit d) = Some d.
Proof.
  intros Hd.
  assert (d = 0 \/ d = 1 \/ d = 2 \/ d = 3 \/ d = 4 \/ d = 5 \/ d = 6 \/ d = 7 \/
          d = 8 \/ d = 9 \/ d = 10 \/ d = 11 \/ d = 12 \/ d = 13 \/ d = 14 \/ d = 15)
    as Hcases by lia.
  repeat (destruct Hcases as [->|Hcases]; [by split|]). subst. by split.
Qed.

(** [bytearray.fromhex] reads back the bytes that were written two digits
    each. *)
Lemma fromhex_hex_pairs bs :
  fromhex (string_of_digits (hex_pairs bs)) = Return bs.
Proof.
  induction bs as [|b bs IH]; [done|].
  pose proof (byte_val_range b) as Hb.
  pose proof (Z.div_mod (byte_val b) 16).
  pose proof (Z.mod_pos_bound (byte_val b) 16).
  assert (0 <= byte_val b / 16 < 16) as Hhi
    by (split; [apply Z.div_pos | apply Z.div_lt_upper_bound]; lia).
  assert (0 <= byte_val b mod 16 < 16) as Hlo by lia.
  destruct (hex_digit_inv _ Hhi) as [Hs1 Hv1].
  destruct (hex_digit_inv _ Hlo) as [_ Hv2].
  unfold string_of_digits in *. simpl hex_pairs. simpl map.
  simpl string_of_list_ascii. simpl fromhex.
  rewrite Hs1, Hv1, Hv2, IH. simpl.
  replace (16 * (byte_val b / 16) + byte_val b mod 16) with (byte_val b) by lia.
  by rewrite byte_of_Z_val.
Qed.

(** *** The encoder on well-formed requests *)

Lemma shiftl_bytes m k : 0 <= k -> Z.shiftl m (8 * k) = m * 256 ^ k.
Proof.
  intros Hk. rewrite Z.shiftl_mul_pow2 by lia.
  by rewrite Z.pow_mul_r by lia.
Qed.

Lemma well_formed_payload_length values :
  well_formed_property values = true ->
  Z.of_nat (length (payload_bytes values)) = declared_length values.
Proof.
  unfold well_formed_property, payload_bytes, declared_length.
  destruct (values !! "EPC") as [epc|]; [|done].
  destruct (values !! "PDC") as [pdc|], (values !! "EDT") as [edt|];
    simpl; rewrite ?length_int_to_bytes_big; lia.
Qed.

Lemma encode_property_wire message values :
  well_formed_property values = true ->
  encode_property message values
  = Return (be_acc message (entry_bytes (request_entry values))).
Proof.
  intros Hwf. pose proof (well_formed_payload_length _ Hwf) as Hlen.
  unfold entry_bytes, request_entry. simpl fst. simpl snd. rewrite Hlen.
  revert Hwf Hlen.
  unfold well_formed_property, encode_property, payload_bytes, declared_length, getitem.
  destruct (values !! "EPC") as [epc|]; [|done].
  intros [Hepc Hwf]%andb_prop Hlen. apply is_byte_range in Hepc.
  simpl obind. simpl default. f_equal.
  destruct (values !! "PDC") as [pdc|], (values !! "EDT") as [edt|];
    simpl default in *; try done.
  - assert (0 < pdc < 256 /\ 0 <= edt < 256 ^ pdc) as [Hpdc Hedt] by lia.
    destruct (pdc >? 0) eqn:E; [|lia]. simpl obind. f_equal.
    change (be_acc message (?a :: ?b :: ?l))
      with (be_acc ((message * 256 + byte_val a) * 256 + byte_val b) l).
    rewrite be_acc_shift, length_int_to_bytes_big, Z2Nat.id by lia.
    rewrite be_acc_int_to_bytes_big by (rewrite Z2Nat.id; lia).
    rewrite !byte_val_of_Z by lia.
    rewrite shiftl_bytes by lia. rewrite !Z.shiftl_mul_pow2 by lia.
    change (2 ^ 8) with 256. done.
  - assert (pdc = 0) as -> by lia. simpl.
    rewrite !byte_val_of_Z by lia. rewrite !Z.shiftl_mul_pow2 by lia.
    change (2 ^ 8) with 256. done.
  - simpl. rewrite !byte_val_of_Z by lia. rewrite !Z.shiftl_mul_pow2 by lia.
    change (2 ^ 8) with 256. done.
Qed.

Lemma encode_properties_wire opc : forall message,
  forallb well_formed_property opc = true ->
  encode_properties message opc
  = Return (be_acc message (flat_map entry_bytes (map request_entry opc))).
Proof.
  induction opc as [|values opc IH]; intros message Hwf; [done|].
  simpl in Hwf. apply andb_prop in Hwf as [Hv Hrest].
  simpl encode_properties. rewrite encode_property_wire by done.
  simpl obind. rewrite IH by done. f_equal.
  change (flat_map entry_bytes (map request_entry (values :: opc)))
    with (entry_bytes (request_entry values)
          ++ flat_map entry_bytes (map request_entry opc)).
  by rewrite be_acc_app.
Qed.

Lemma be_acc_wire_header tid gc cc ic esv n :
  0 <= tid <= 0xFFFF -> 0 <= gc < 256 -> 0 <= cc < 256 -> 0 <= ic < 256 ->
  0 <= esv < 256 -> 0 <= n < 256 ->
  be_acc 0 (wire_header tid gc cc ic esv ++ [byte_of_Z n])
  = Z.shiftl (Z.shiftl (Z.shiftl (Z.shiftl (Z.shiftl
      (Z.shiftl (Z.shiftl 0x1081 16 + tid) 24 + 0x05FF01) 8 + gc) 8 + cc) 8 + ic)
      8 + esv) 8 + n.
Proof.
  intros Htid Hgc Hcc Hic Hesv Hn. unfold wire_header.
  rewrite !be_acc_app.
  rewrite (be_acc_shift _ (int_to_bytes_big 2 tid)), length_int_to_bytes_big.
  rewrite be_acc_int_to_bytes_big by (change (256 ^ Z.of_nat 2) with 65536; lia).
  unfold be_acc at 1 2 3. simpl fold_left.
  rewrite !byte_val_of_Z by lia.
  change (byte_val x10) with 16. change (byte_val x81) with 129.
  change (byte_val x05) with 5. change (byte_val xff) with 255.
  change (byte_val x01) with 1.
  rewrite !Z.shiftl_mul_pow2 by lia.
  change (256 ^ Z.of_nat 2) with 65536. lia.
Qed.

Section EncoderFacts.

Variable eojx_GROUP : gset Z.
Variable eojx_CLASS : gmap Z (gset Z).
Variable esv_CODES : gset Z.

Lemma class_registeredb_spec gc cc :
  class_registeredb eojx_CLASS gc cc = true <-> class_registered eojx_CLASS gc cc.
Proof.
  unfold class_registeredb, class_registered.
  destruct (eojx_CLASS !! gc) as [classes|].
  - rewrite bool_decide_eq_true. split; [eauto|]. by intros (? & [= <-] & ?).
  - split; [done|]. by intros (? & [=] & ?).
Qed.

(** With every check passed, the encoder returns the hexadecimal text of
    the frame, two digits a byte. *)
Lemma build_message_wire data tid gc cc ic esv opc :
  data !! "TID" = Some (VInt tid) ->
  data !! "DEOJGC" = Some (VInt gc) ->
  data !! "DEOJCC" = Some (VInt cc) ->
  data !! "DEOJIC" = Some (VInt ic) ->
  data !! "ESV" = Some (VInt esv) ->
  data !! "OPC" = Some (VList opc) ->
  0 <= tid <= 0xFFFF -> 0 <= gc < 256 -> 0 <= cc < 256 -> 0 <= ic < 256 ->
  0 <= esv < 256 -> Z.of_nat (length opc) <= 255 ->
  gc ∈ eojx_GROUP -> class_registered eojx_CLASS gc cc -> esv ∈ esv_CODES ->
  forallb well_formed_property opc = true ->
  build_message eojx_GROUP eojx_CLASS esv_CODES data
  = Return (string_of_digits (hex_pairs (wire_bytes tid gc cc ic esv opc))).
Proof.
  intros Ht Hg Hc Hi He Ho Htid Hgc Hcc Hic Hesv Hlen Hin1 (classes & Hcl & Hin2) Hin3 Hwf.
  unfold build_message, getitem. rewrite Ht, Hg, Hc, Hi, He, Ho.
  cbn [obind as_int as_list]. rewrite decide_True by done.
  cbn [obind]. rewrite Hcl. cbn [obind as_int].
  repeat (rewrite decide_True by done; cbn [obind]).
  rewrite encode_properties_wire by done.
  cbn [obind]. f_equal.
  rewrite <- be_acc_wire_header by lia.
  rewrite <- be_acc_app, <- app_assoc.
  change (wire_header tid gc cc ic esv ++
          [byte_of_Z (Z.of_nat (length opc))] ++
          flat_map entry_bytes (map request_entry opc))
    with (wire_bytes tid gc cc ic esv opc).
  apply (format_x_be_acc x10). by vm_compute.
Qed.

End EncoderFacts.

(** *** The decoder on complete and on truncated entries *)

Lemma index_middle {A} (pre rest : list A) x :
  index (pre ++ x :: rest) (length pre) = Return x.
Proof. unfold index. by rewrite list_lookup_middle. Qed.

Lemma index_beyond {A} (l : list A) i :
  (length l <= i)%nat -> index l i = Raise IndexError.
Proof. intros Hi. unfold index. by rewrite lookup_ge_None_2. Qed.

Lemma slice_middle {A} (pre mid rest : list A) :
  slice (pre ++ mid ++ rest) (length pre) (length pre + length mid) = mid.
Proof.
  unfold slice. rewrite drop_app_length.
  replace (length pre + length mid - length pre)%nat with (length mid) by lia.
  by rewrite take_app_length.
Qed.

Lemma slice_to_end {A} (pre rest : list A) n :
  (length rest <= n)%nat ->
  slice (pre ++ rest) (length pre) (length pre + n) = rest.
Proof.
  intros Hn. unfold slice. rewrite drop_app_length.
  apply take_ge. lia.
Qed.

Lemma decode_properties_step byte remaining p acc e l :
  index byte p = Return e ->
  index byte (p + 1) = Return l ->
  decode_properties byte (S remaining) p acc
  = decode_properties byte remaining (p + 1 + 1 + Z.to_nat (byte_val l))
      (acc ++ [mkProperty (byte_val e) (byte_val l)
                 (slice byte (p + 1 + 1) (p + 1 + 1 + Z.to_nat (byte_val l)))]).
Proof. intros He Hl. simpl. by rewrite He, Hl. Qed.

(** Complete entries are decoded one after the other, whatever follows. *)
Lemma decode_properties_entries entries : forall byte pre tail m acc,
  byte = pre ++ flat_map entry_bytes entries ++ tail ->
  Forall (fun e => (length e.2 < 256)%nat) entries ->
  decode_properties byte (length entries + m) (length pre) acc
  = decode_properties byte m
      (length pre + length (flat_map entry_bytes entries))
      (acc ++ map entry_property entries).
Proof.
  induction entries as [|[e pl] entries IH]; intros byte pre tail m acc Hbyte Hlen.
  - simpl. by rewrite Nat.add_0_r, app_nil_r.
  - apply Forall_cons in Hlen as [Hpl Hlen]. simpl in Hpl.
    set (l := byte_of_Z (Z.of_nat (length pl))).
    assert (Z.to_nat (byte_val l) = length pl) as Hl
      by (unfold l; rewrite byte_val_of_Z; lia).
    assert (byte = pre ++ e :: l :: pl ++ flat_map entry_bytes entries ++ tail)
      as Hbyte1 by (rewrite Hbyte; simpl; by rewrite <- app_assoc).
    assert (byte = (pre ++ [e]) ++ l :: pl ++ flat_map entry_bytes entries ++ tail)
      as Hbyte2 by (rewrite Hbyte1, <- app_assoc; done).
    assert (byte = (pre ++ [e; l]) ++ pl ++ flat_map entry_bytes entries ++ tail)
      as Hbyte3 by (rewrite Hbyte1, <- app_assoc; done).
    assert (byte = (pre ++ e :: l :: pl) ++ flat_map entry_bytes entries ++ tail)
      as Hbyte4 by (rewrite Hbyte1, <- app_assoc; done).
    simpl length at 1. simpl Nat.add at 1.
    rewrite (decode_properties_step _ _ _ _ e l).
    + rewrite Hl.
      replace (slice byte (length pre + 1 + 1) (length pre + 1 + 1 + length pl)) with pl.
      2:{ rewrite Hbyte3 at 1.
          replace (length pre + 1 + 1)%nat with (length (pre ++ [e; l]))
            by (rewrite length_app; simpl; lia).
          by rewrite slice_middle. }
      replace (length pre + 1 + 1 + length pl)%nat with (length (pre ++ e :: l :: pl))
        by (rewrite length_app; simpl; lia).
      rewrite (IH byte _ tail m _ Hbyte4 Hlen).
      f_equal.
      * rewrite !length_app. simpl. rewrite length_app. lia.
      * rewrite <- app_assoc. f_equal. simpl. f_equal.
        unfold entry_property. simpl. f_equal.
        unfold l. rewrite byte_val_of_Z by lia. done.
    + rewrite Hbyte1. apply index_middle.
    + rewrite Hbyte2.
      replace (length pre + 1)%nat with (length (pre ++ [e]))
        by (rewrite length_app; simpl; lia).
      apply index_middle.
Qed.

(** A declared entry whose code or length byte is past the end of the
    input: the raw [IndexError] of the indexing. *)
Lemma decode_properties_short byte pre tail m acc :
  byte = pre ++ tail -> (length tail < 2)%nat ->
  decode_properties byte (S m) (length pre) acc = Raise IndexError.
Proof.
  intros -> Htail. simpl.
  destruct tail as [|e [|? ?]]; [| |simpl in Htail; lia].
  - by rewrite index_beyond by (rewrite length_app; simpl; lia).
  - rewrite index_middle. simpl.
    by rewrite index_beyond by (rewrite length_app; simpl; lia).
Qed.

(** A declared entry whose payload is cut short by the end of the input:
    the slice keeps what is there, and only a further entry fails. *)
Lemma decode_properties_cut byte pre e l partial m acc :
  byte = pre ++ e :: l :: partial ->
  Z.of_nat (length partial) < byte_val l ->
  decode_properties byte (S m) (length pre) acc
  = match m with
    | O => Return (acc ++ [mkProperty (byte_val e) (byte_val l) partial])
    | S _ => Raise IndexError
    end.
Proof.
  intros Hbyte Hcut.
  assert (byte = (pre ++ [e]) ++ l :: partial)
    as Hbyte2 by (rewrite Hbyte, <- app_assoc; done).
  assert (byte = (pre ++ [e; l]) ++ partial)
    as Hbyte3 by (rewrite Hbyte, <- app_assoc; done).
  rewrite (decode_properties_step _ _ _ _ e l).
  - destruct m as [|m].
    + cbn [decode_properties]. rewrite Hbyte3.
      replace (length pre + 1 + 1)%nat with (length (pre ++ [e; l]))
        by (rewrite length_app; simpl; lia).
      rewrite slice_to_end by lia. done.
    + simpl. rewrite index_beyond; [done|].
      rewrite Hbyte, length_app. simpl. lia.
  - rewrite Hbyte. apply index_middle.
  - rewrite Hbyte2.
    replace (length pre + 1)%nat with (length (pre ++ [e]))
      by (rewrite length_app; simpl; lia).
    apply index_middle.
Qed.

Section DecoderFacts.

Variable epc_EHD1 : gset Z.
Variable epc_EHD2 : gset Z.

(** With twelve bytes or more and registered header bytes, the decoder
    reaches the property loop. *)
Lemma decode_frame_header h count body :
  length h = 11%nat ->
  byte_val (nth 0 h x00) ∈ epc_EHD1 ->
  byte_val (nth 1 h x00) ∈ epc_EHD2 ->
  decode_frame epc_EHD1 epc_EHD2 (h ++ count :: body)
  = (opc <- decode_properties (h ++ count :: body)
              (Z.to_nat (byte_val count)) 12 [] ;;
     Return (header_frame h opc)).
Proof.
  intros Hlen H1 H2.
  do 11 (destruct h as [|? h]; [simpl in Hlen; lia|]).
  destruct h; [|simpl in Hlen; lia].
  simpl in H1, H2. unfold decode_frame, index.
  cbn [lookup list_lookup obind app].
  rewrite (decide_True _ _ H1). cbn [obind].
  rewrite (decide_True _ _ H2). cbn [obind]. done.
Qed.

End DecoderFacts.

(** *** Encoding a well-formed request and decoding it again *)

Lemma well_formed_entry_length values :
  well_formed_property values = true ->
  (length (request_entry values).2 < 256)%nat.
Proof.
  intros Hwf. pose proof (well_formed_payload_length _ Hwf) as Hlen.
  simpl. revert Hwf Hlen. unfold well_formed_property, declared_length.
  destruct (values !! "EPC") as [epc|]; [|done].
  destruct (values !! "PDC") as [pdc|], (values !! "EDT") as [edt|];
    simpl; lia.
Qed.

Lemma well_formed_property_matches values :
  well_formed_property values = true ->
  property_matches values (entry_property (request_entry values)).
Proof.
  intros Hwf. pose proof (well_formed_payload_length _ Hwf) as Hlen.
  unfold property_matches, entry_property, request_entry. simpl.
  repeat split; try done.
  revert Hwf. unfold well_formed_property.
  destruct (values !! "EPC") as [epc|]; [|done].
  intros [Hepc _]%andb_prop. apply is_byte_range in Hepc.
  simpl. by rewrite byte_val_of_Z.
Qed.

Lemma entries_size_length opc :
  length (flat_map entry_bytes (map request_entry opc)) = entries_size opc.
Proof.
  induction opc as [|values opc IH]; [done|].
  simpl. rewrite length_app, IH. done.
Qed.

Lemma header_frame_wire tid gc cc ic esv opc :
  0 <= tid <= 0xFFFF -> 0 <= gc < 256 -> 0 <= cc < 256 -> 0 <= ic < 256 ->
  0 <= esv < 256 ->
  header_frame (wire_header tid gc cc ic esv) opc
  = mkFrame 0x10 0x81 tid 0x05 0xFF 0x01 gc cc ic esv opc None.
Proof.
  intros Htid Hgc Hcc Hic Hesv. unfold header_frame.
  replace (int_from_bytes_big (slice (wire_header tid gc cc ic esv) 2 4)) with tid.
  - unfold wire_header. cbn [int_to_bytes_big app nth].
    rewrite !byte_val_of_Z by lia. done.
  - change (slice (wire_header tid gc cc ic esv) 2 4) with (int_to_bytes_big 2 tid).
    symmetry. apply (be_acc_int_to_bytes_big 2).
    change (256 ^ Z.of_nat 2) with 65536. lia.
Qed.

Section Codec.

Variable eojx_GROUP : gset Z.
Variable eojx_CLASS : gmap Z (gset Z).
Variable esv_CODES : gset Z.
Variable epc_EHD1 : gset Z.
Variable epc_EHD2 : gset Z.

Local Abbreviation Build := (BuildEchonetMsg eojx_GROUP eojx_CLASS esv_CODES).
Local Abbreviation Decode := (DecodeEchonetMsg epc_EHD1 epc_EHD2).
Local Abbreviation well_formed := (well_formed_request eojx_GROUP eojx_CLASS esv_CODES).

(** The fields of a well-formed request and the text the encoder returns
    for it. *)
Lemma BuildEchonetMsg_well_formed data :
  well_formed data = true ->
  exists tid gc cc ic esv opc,
    request_TID data = tid /\
    data !! "DEOJGC" = Some (VInt gc) /\
    data !! "DEOJCC" = Some (VInt cc) /\
    data !! "DEOJIC" = Some (VInt ic) /\
    data !! "ESV" = Some (VInt esv) /\
    data !! "OPC" = Some (VList opc) /\
    (0 <= tid <= 0xFFFF /\ 0 <= gc < 256 /\ 0 <= cc < 256 /\
     0 <= ic < 256 /\ 0 <= esv < 256 /\ Z.of_nat (length opc) <= 255) /\
    forallb well_formed_property opc = true /\
    (Build data).2
    = Return (string_of_digits (hex_pairs (wire_bytes tid gc cc ic esv opc))).
Proof.
  unfold well_formed_request. intros [Htid Hrest]%andb_prop.
  destruct (data !! "DEOJGC") as [[gc|]|] eqn:Hg; try done.
  destruct (data !! "DEOJCC") as [[cc|]|] eqn:Hc; try done.
  destruct (data !! "DEOJIC") as [[ic|]|] eqn:Hi; try done.
  destruct (data !! "ESV") as [[esv|]|] eqn:He; try done.
  destruct (data !! "OPC") as [[|opc]|] eqn:Ho; try done.
  repeat (apply andb_prop in Hrest as [Hrest ?]).
  repeat match goal with
  | H : is_byte _ = true |- _ => apply is_byte_range in H
  | H : bool_decide _ = true |- _ => apply bool_decide_eq_true in H
  | H : class_registeredb _ _ _ = true |- _ => apply class_registeredb_spec in H
  end.
  exists (request_TID data), gc, cc, ic, esv, opc.
assert (0 <= request_TID data <= 0xFFFF) as Htid'.
{ unfold request_TID. destruct (data !! "TID") as [[tid|]|]; lia. }
repeat split; try done; try lia.
unfold BuildEchonetMsg, validate_TID. revert Htid Htid'. unfold request_TID.
destruct (data !! "TID") as [[tid|]|] eqn:Ht; try done; intros Htid Htid'.
- cbn [snd obind as_int].
  destruct (tid >? 0xFFFF) eqn:E; [lia|]. cbn [obind].
  by rewrite (build_message_wire _ _ _ data tid gc cc ic esv opc) by (done || lia).
- cbn [snd obind].
  rewrite (build_message_wire _ _ _ _ 1 gc cc ic esv opc);
    first [done | lia | by rewrite lookup_insert_ne | by rewrite lookup_insert_eq].
Qed.

(** The frame the decoder returns for the bytes of a well-formed
    request. *)
Lemma DecodeEchonetMsg_wire tid gc cc ic esv opc :
  0x10 ∈ epc_EHD1 -> 0x81 ∈ epc_EHD2 ->
  Z.of_nat (length opc) <= 255 ->
  forallb well_formed_property opc = true ->
  Decode (wire_bytes tid gc cc ic esv opc)
  = Return (header_frame (wire_header tid gc cc ic esv)
              (map entry_property (map request_entry opc))).
Proof.
  intros H1 H2 Hlen Hwf. unfold DecodeEchonetMsg, wire_bytes.
  rewrite decode_frame_header; [|done..].
  rewrite byte_val_of_Z by lia. rewrite Nat2Z.id.
  pose proof (decode_properties_entries (map request_entry opc)
    (wire_header tid gc cc ic esv ++
       byte_of_Z (Z.of_nat (length opc)) ::
       flat_map entry_bytes (map request_entry opc))
    (wire_header tid gc cc ic esv ++ [byte_of_Z (Z.of_nat (length opc))])
    [] 0%nat []) as Hdec.
  rewrite length_map, Nat.add_0_r in Hdec.
  replace (length (wire_header tid gc cc ic esv
                   ++ [byte_of_Z (Z.of_nat (length opc))])) with 12%nat in Hdec
    by done.
  rewrite Hdec.
  - done.
  - by rewrite app_nil_r, <- app_assoc.
  - apply Forall_map, Forall_forall. intros values Hin.
    apply well_formed_entry_length.
    rewrite forallb_forall in Hwf. apply Hwf. by apply list_elem_of_In.
Qed.

(** C1. For every well-formed request, the text [BuildEchonetMsg] returns,
    read as bytes by [bytearray.fromhex] and decoded by [DecodeEchonetMsg],
    gives back every field of the request: the header bytes [0x10] and
    [0x81], the transaction id, the source object [05 ff 01], the
    destination object, the service code, as many properties as the request
    has, and for each property its code, its length and its payload bytes,
    leading zero bytes included. *)
Theorem BuildEchonetMsg_DecodeEchonetMsg_roundtrip data :
  well_formed data = true ->
  0x10 ∈ epc_EHD1 -> 0x81 ∈ epc_EHD2 ->
  exists message bytes rx,
    (Build data).2 = Return message /\
    fromhex message = Return bytes /\
    Decode bytes = Return rx /\
    frame_matches data rx.
Proof.
  intros Hwf H1 H2.
  destruct (BuildEchonetMsg_well_formed data Hwf)
    as (tid & gc & cc & ic & esv & opc & Htid & Hg & Hc & Hi & He & Ho
        & (? & ? & ? & ? & ? & ?) & Hprops & Hbuild).
  eexists _, _, _. split; [exact Hbuild|].
  split; [apply fromhex_hex_pairs|].
  split; [by apply DecodeEchonetMsg_wire|].
  rewrite header_frame_wire by done.
  unfold frame_matches. simpl.
  repeat split; try done.
  exists opc. split; [done|]. split; [by rewrite !length_map|].
  clear -Hprops. induction opc as [|values opc IH]; [constructor|].
  simpl in Hprops. apply andb_prop in Hprops as [Hv Hrest].
  constructor; [by apply well_formed_property_matches | by apply IH].
Qed.

(** C8, as the code has it. For every well-formed request the encoded frame
    has 12 bytes up to and including the property count, and then, for each
    property, 2 bytes and its payload. *)
Theorem BuildEchonetMsg_byte_count data opc :
  well_formed data = true ->
  data !! "OPC" = Some (VList opc) ->
  exists message bytes,
    (Build data).2 = Return message /\
    fromhex message = Return bytes /\
    length bytes = (12 + entries_size opc)%nat.
Proof.
  intros Hwf Hopc.
  destruct (BuildEchonetMsg_well_formed data Hwf)
    as (tid & gc & cc & ic & esv & opc' & Htid & Hg & Hc & Hi & He & Ho
        & _ & Hprops & Hbuild).
  assert (opc' = opc) as -> by congruence.
  eexists _, _. split; [exact Hbuild|].
  split; [apply fromhex_hex_pairs|].
  unfold wire_bytes. rewrite length_app. simpl length at 2.
  rewrite entries_size_length.
  unfold wire_header. rewrite !length_app, length_int_to_bytes_big. simpl. lia.
Qed.

End Codec.

Lemma roundtrip_witness :
  well_formed_request sample_GROUP sample_CLASS sample_CODES sample_request = true /\
  exists message bytes rx,
    (BuildEchonetMsg sample_GROUP sample_CLASS sample_CODES sample_request).2
      = Return message /\
    fromhex message = Return bytes /\
    DecodeEchonetMsg sample_EHD1 sample_EHD2 bytes = Return rx /\
    frame_matches sample_request rx.
Proof.
  split; [vm_compute; reflexivity|].
  apply (BuildEchonetMsg_DecodeEchonetMsg_roundtrip
           sample_GROUP sample_CLASS sample_CODES sample_EHD1 sample_EHD2
           sample_request).
  - vm_compute; reflexivity.
  - apply (bool_decide_unpack _). vm_compute. exact I.
  - apply (bool_decide_unpack _). vm_compute. exact I.
Defined.

(** The round trip on the sample request, run: the payload [00 01 02]
    comes back with its leading zero byte. *)
Example roundtrip_leading_zero :
  (message <- (BuildEchonetMsg sample_GROUP sample_CLASS sample_CODES sample_request).2 ;;
   bytes <- fromhex message ;;
   DecodeEchonetMsg sample_EHD1 sample_EHD2 bytes)
  = Return (mkFrame 0x10 0x81 0x1234 0x05 0xFF 0x01 0x01 0x30 0x01 0x61
              [mkProperty 0x80 1 [x30]; mkProperty 0xB3 3 [x00; x01; x02];
               mkProperty 0xD6 0 []] None).
Proof. vm_compute. reflexivity. Qed.

Lemma byte_count_witness :
  well_formed_request sample_GROUP sample_CLASS sample_CODES sample_request = true /\
  exists message bytes,
    (BuildEchonetMsg sample_GROUP sample_CLASS sample_CODES sample_request).2
      = Return message /\
    fromhex message = Return bytes /\
    length bytes = (12 + entries_size sample_properties)%nat.
Proof.
  split; [vm_compute; reflexivity|].
  apply (BuildEchonetMsg_byte_count
           sample_GROUP sample_CLASS sample_CODES sample_request sample_properties).
  - vm_compute; reflexivity.
  - vm_compute; reflexivity.
Defined.

(** C8, as it is worded, fails on the discovery frame: its 14 bytes are the
    12 bytes that end with the property count and the 2 bytes of the one
    property, not 12 + 1 + 2. *)
Lemma byte_count_discovery_frame :
  exists message bytes,
    (BuildEchonetMsg sample_GROUP sample_CLASS sample_CODES tx_payload).2
      = Return message /\
    fromhex message = Return bytes /\
    length bytes = 14%nat /\
    length bytes <> (12 + 1 + entries_size [ {["EPC" := 0xD6%Z]} ])%nat.
Proof.
  eexists _, _. split; [vm_compute; reflexivity|].
  split; [vm_compute; reflexivity|].
  split; [reflexivity|]. vm_compute. discriminate.
Qed.

(** *** What the encoder does to its argument, and when it gives up *)

Lemma encode_property_outcome message values :
  (exists m, encode_property message values = Return m)
  \/ encode_property message values = Raise KeyError.
Proof.
  unfold encode_property, getitem.
  destruct (values !! "EPC") as [epc|]; [|by right]. cbn [obind].
  destruct (values !! "PDC") as [pdc|]; [|by left; eexists].
  destruct (pdc >? 0); [|by left; eexists].
  destruct (values !! "EDT") as [edt|]; [by left; eexists | by right].
Qed.

(** The property loop raises no [ValueError]: it returns, or a missing key
    is a [KeyError]. *)
Lemma encode_properties_outcome opc : forall message,
  (exists m, encode_properties message opc = Return m)
  \/ encode_properties message opc = Raise KeyError.
Proof.
  induction opc as [|values opc IH]; intros message; [by left; eexists|].
  simpl. destruct (encode_property_outcome message values) as [[m ->] | ->].
  - apply IH.
  - by right.
Qed.

Section EncoderChecks.

Variable eojx_GROUP : gset Z.
Variable eojx_CLASS : gmap Z (gset Z).
Variable esv_CODES : gset Z.

Local Abbreviation Build := (BuildEchonetMsg eojx_GROUP eojx_CLASS esv_CODES).

(** The checks that follow the one of ['TID']. *)
Lemma build_message_quits data tid gc cc ic esv :
  data !! "TID" = Some (VInt tid) ->
  data !! "DEOJGC" = Some (VInt gc) ->
  data !! "DEOJCC" = Some (VInt cc) ->
  data !! "DEOJIC" = Some (VInt ic) ->
  data !! "ESV" = Some (VInt esv) ->
  (forall g, g ∈ eojx_GROUP -> is_Some (eojx_CLASS !! g)) ->
  except_ValueError_quit (build_message eojx_GROUP eojx_CLASS esv_CODES data) = Quit
  <-> gc ∉ eojx_GROUP \/ ~ class_registered eojx_CLASS gc cc \/ esv ∉ esv_CODES.
Proof.
  intros Ht Hg Hc Hi He Hreg.
  unfold build_message, getitem. rewrite Ht, Hg, Hc, Hi, He.
  cbn [obind as_int].
  destruct (decide (gc ∈ eojx_GROUP)) as [Hgc|Hgc]; cbn [obind];
    [|by split; [left|]].
  destruct (Hreg gc Hgc) as [classes Hcl]. rewrite Hcl. cbn [obind as_int].
  destruct (decide (cc ∈ classes)) as [Hcc|Hcc]; cbn [obind].
  2:{ split; [|done]. intros _. right; left.
      intros (classes' & Hcl' & Hin). congruence. }
  destruct (decide (esv ∈ esv_CODES)) as [Hesv|Hesv]; cbn [obind];
    [|by split; [right; right|]].
  split.
  - intros Hquit. exfalso. revert Hquit.
    destruct (data !! "OPC") as [[z|opc]|]; cbn [obind as_list]; try done.
    match goal with |- context [encode_properties ?m opc] =>
      destruct (encode_properties_outcome opc m) as [[? ->] | ->] end; done.
  - intros [?|[Hno|?]]; try done. exfalso. apply Hno. by exists classes.
Qed.

(** C2, as the code has it. For every request whose header fields are
    there, and with a class registry for every registered group,
    [BuildEchonetMsg] prints the error and ends the process with [quit()]
    exactly when the transaction id is above [0xFFFF], or the destination
    group is not registered, or the destination class is not registered for
    that group, or the service code is not registered; it does so for the
    transaction id [0x10000]. *)
Theorem BuildEchonetMsg_invalid_request_quits data tid gc cc ic esv :
  header_fields data tid gc cc ic esv ->
  (forall g, g ∈ eojx_GROUP -> is_Some (eojx_CLASS !! g)) ->
  ((Build data).2 = Quit
   <-> tid > 0xFFFF \/ gc ∉ eojx_GROUP \/
       ~ class_registered eojx_CLASS gc cc \/ esv ∉ esv_CODES)
  /\ (tid = 0x10000 -> (Build data).2 = Quit).
Proof.
  intros (Ht & Hg & Hc & Hi & He) Hreg.
  assert ((Build data).2 = Quit
          <-> tid > 0xFFFF \/ gc ∉ eojx_GROUP \/
              ~ class_registered eojx_CLASS gc cc \/ esv ∉ esv_CODES) as Hiff.
  { unfold BuildEchonetMsg, validate_TID.
    destruct Ht as [[Ht ->] | Ht]; rewrite Ht; cbn [snd obind as_int].
    - rewrite (build_message_quits _ 1 gc cc ic esv);
        [| by rewrite lookup_insert_eq | by rewrite lookup_insert_ne.. | done].
      split; [tauto|]. intros [?|?]; [lia|done].
    - destruct (tid >? 0xFFFF) eqn:E; cbn [obind].
      + split; [intros _; left; lia | done].
      + rewrite (build_message_quits _ tid gc cc ic esv) by done.
        split; [tauto|]. intros [?|?]; [lia|done]. }
  split; [exact Hiff|]. intros ->. apply Hiff. left. lia.
Qed.

(** C9. On a request without ['TID'], [BuildEchonetMsg] leaves ['TID'] = 1
    in the caller's dictionary and encodes the dictionary so completed; no
    call changes any other key. *)
Theorem BuildEchonetMsg_defaults_TID data :
  (data !! "TID" = None ->
   (Build data).1 = <["TID" := VInt 0x01]> data /\
   (Build data).2
   = except_ValueError_quit
       (build_message eojx_GROUP eojx_CLASS esv_CODES (<["TID" := VInt 0x01]> data)))
  /\ (forall key, key <> "TID"%string -> (Build data).1 !! key = data !! key).
Proof.
  unfold BuildEchonetMsg, validate_TID.
  destruct (data !! "TID") as [v|] eqn:Ht; cbn [fst snd].
  - split; [done|]. done.
  - split; [done|]. intros key Hkey. by rewrite lookup_insert_ne.
Qed.

(** The call of [Discover] to the encoder: the request keeps its keys and
    the text of the discovery frame comes back. *)
Lemma Build_tx_payload :
  discovery_registered eojx_GROUP eojx_CLASS esv_CODES ->
  Build tx_payload = (tx_payload, Return "1081000105ff010ef0006201d600"%string).
Proof.
  intros (Hg & Hc & He).
  unfold BuildEchonetMsg, validate_TID.
  replace (tx_payload !! "TID") with (Some (VInt 0x01)) by (vm_compute; reflexivity).
  cbn [snd as_int obind]. change (0x01 >? 0xFFFF) with false. cbn [obind].
  rewrite (build_message_wire _ _ _ tx_payload 0x01 0x0E 0xF0 0x00 0x62
             [ {["EPC" := 0xD6]} ]);
    first [done | lia | vm_compute; reflexivity].
Qed.

(** C10. With the codes of the discovery request registered,
    [BuildEchonetMsg] returns for it the text of the 14 bytes
    [10 81 00 01 05 ff 01 0e f0 00 62 01 d6 00]. *)
Theorem BuildEchonetMsg_discovery_message :
  discovery_registered eojx_GROUP eojx_CLASS esv_CODES ->
  (Build tx_payload).2 = Return "1081000105ff010ef0006201d600"%string.
Proof.
  intros Hreg. by rewrite Build_tx_payload.
Qed.

End EncoderChecks.

Lemma sample_CLASS_complete g :
  g ∈ sample_GROUP -> is_Some (sample_CLASS !! g).
Proof.
  intros [->%elem_of_singleton | ->%elem_of_singleton]%elem_of_union;
    vm_compute; eauto.
Qed.

Lemma invalid_request_quits_witness :
  header_fields oversized_request 0x10000 0x0E 0xF0 0x00 0x62 /\
  (((BuildEchonetMsg sample_GROUP sample_CLASS sample_CODES oversized_request).2 = Quit
    <-> 0x10000 > 0xFFFF \/ 0x0E ∉ sample_GROUP \/
        ~ class_registered sample_CLASS 0x0E 0xF0 \/ 0x62 ∉ sample_CODES)
   /\ (0x10000 = 0x10000 ->
       (BuildEchonetMsg sample_GROUP sample_CLASS sample_CODES oversized_request).2 = Quit)).
Proof.
  assert (header_fields oversized_request 0x10000 0x0E 0xF0 0x00 0x62) as Hfields.
  { unfold header_fields. split; [right|]; repeat split; vm_compute; reflexivity. }
  split; [exact Hfields|].
  exact (BuildEchonetMsg_invalid_request_quits sample_GROUP sample_CLASS sample_CODES
           oversized_request 0x10000 0x0E 0xF0 0x00 0x62 Hfields sample_CLASS_complete).
Defined.

(** C2, as it is worded, fails at the transaction id [0x10000]: the call
    ends the process, it raises nothing that its caller could handle as an
    invalid request. *)
Lemma oversized_TID_quits :
  (BuildEchonetMsg sample_GROUP sample_CLASS sample_CODES oversized_request).2 = Quit /\
  ~ exists e,
      (BuildEchonetMsg sample_GROUP sample_CLASS sample_CODES oversized_request).2
      = Raise e.
Proof.
  assert ((BuildEchonetMsg sample_GROUP sample_CLASS sample_CODES oversized_request).2
          = Quit) as Hquit by (vm_compute; reflexivity).
  split; [exact Hquit|]. intros [e He]. congruence.
Qed.

Lemma defaults_TID_witness :
  delete "TID" tx_payload !! "TID" = None /\
  ((delete "TID" tx_payload !! "TID" = None ->
    (BuildEchonetMsg sample_GROUP sample_CLASS sample_CODES (delete "TID" tx_payload)).1
    = <["TID" := VInt 0x01]> (delete "TID" tx_payload) /\
    (BuildEchonetMsg sample_GROUP sample_CLASS sample_CODES (delete "TID" tx_payload)).2
    = except_ValueError_quit
        (build_message sample_GROUP sample_CLASS sample_CODES
           (<["TID" := VInt 0x01]> (delete "TID" tx_payload))))
   /\ (forall key, key <> "TID"%string ->
       (BuildEchonetMsg sample_GROUP sample_CLASS sample_CODES
          (delete "TID" tx_payload)).1 !! key
       = delete "TID" tx_payload !! key)).
Proof.
  split; [vm_compute; reflexivity|].
  exact (BuildEchonetMsg_defaults_TID sample_GROUP sample_CLASS sample_CODES
           (delete "TID" tx_payload)).
Defined.

(** The request of [Discover] without its ['TID']: the call returns the
    same text and leaves ['TID'] = 1 behind. *)
Example defaults_TID_run :
  BuildEchonetMsg sample_GROUP sample_CLASS sample_CODES (delete "TID" tx_payload)
  = (tx_payload, Return "1081000105ff010ef0006201d600"%string).
Proof. vm_compute. reflexivity. Qed.

Lemma sample_discovery_registered :
  discovery_registered sample_GROUP sample_CLASS sample_CODES.
Proof.
  split; [|split].
  - apply (bool_decide_unpack _). vm_compute. exact I.
  - apply class_registeredb_spec. vm_compute. reflexivity.
  - apply (bool_decide_unpack _). vm_compute. exact I.
Defined.

Lemma discovery_message_witness :
  discovery_registered sample_GROUP sample_CLASS sample_CODES /\
  (BuildEchonetMsg sample_GROUP sample_CLASS sample_CODES tx_payload).2
  = Return "1081000105ff010ef0006201d600"%string.
Proof.
  split; [exact sample_discovery_registered|].
  exact (BuildEchonetMsg_discovery_message sample_GROUP sample_CLASS sample_CODES
           sample_discovery_registered).
Defined.

(** *** The decoder on short and on truncated input *)

Section DecoderChecks.

Variable epc_EHD1 : gset Z.
Variable epc_EHD2 : gset Z.

Local Abbreviation Decode := (DecodeEchonetMsg epc_EHD1 epc_EHD2).

(** C3, as the code has it. On an input shorter than 12 bytes
    [DecodeEchonetMsg] returns no frame: the raw [IndexError] of the
    indexing reaches the caller, unless a header byte that is there is not
    registered, in which case the call ends the process with [quit()]. *)
Theorem DecodeEchonetMsg_short_input byte :
  (length byte < 12)%nat ->
  (Decode byte = Raise IndexError \/ Decode byte = Quit) /\
  (Decode byte = Quit
   <-> (exists b, byte !! 0%nat = Some b /\ byte_val b ∉ epc_EHD1) \/
       (exists b, byte !! 1%nat = Some b /\ byte_val b ∉ epc_EHD2)).
Proof.
  intros Hlen. unfold DecodeEchonetMsg, decode_frame, index.
  destruct byte as [|b0 byte]; cbn [lookup list_lookup obind except_ValueError_quit].
  { split; [by left|]. split; [done|]. by intros [(? & [=] & _) | (? & [=] & _)]. }
  destruct (decide (byte_val b0 ∈ epc_EHD1)) as [H0|H0];
    cbn [obind except_ValueError_quit].
  2:{ split; [by right|]. split; [|done]. intros _. left. by exists b0. }
  destruct byte as [|b1 byte]; cbn [lookup list_lookup obind except_ValueError_quit].
  { split; [by left|]. split; [done|].
    intros [(? & [= <-] & ?) | (? & [=] & _)]. done. }
  destruct (decide (byte_val b1 ∈ epc_EHD2)) as [H1|H1];
    cbn [obind except_ValueError_quit].
  2:{ split; [by right|]. split; [|done]. intros _. right. by exists b1. }
  assert (forall o : outcome frame, o = Raise IndexError ->
            (except_ValueError_quit o = Raise IndexError
             \/ except_ValueError_quit o = Quit) /\
            (except_ValueError_quit o = Quit
             <-> (exists b, Some b0 = Some b /\ byte_val b ∉ epc_EHD1) \/
                 (exists b, Some b1 = Some b /\ byte_val b ∉ epc_EHD2))) as Hend.
  { intros o ->. split; [by left|]. split; [done|].
    by intros [(? & [= <-] & ?) | (? & [= <-] & ?)]. }
  apply Hend.
  do 10 (destruct byte as [|? byte]; [reflexivity|]).
  simpl in Hlen. lia.
Qed.

(** C4, as the code has it. Take an input with eleven header bytes, the
    first two registered, a count byte, and fewer complete entries than the
    count declares, followed by [tail]. When [tail] is too short to hold
    the code and the length byte of the next entry, the raw [IndexError]
    reaches the caller. When [tail] holds them and fewer payload bytes than
    declared, a frame is returned with the payload cut short if this is the
    last declared entry, and the [IndexError] is raised if it is not. *)
Theorem DecodeEchonetMsg_truncated_input h count entries tail :
  length h = 11%nat ->
  byte_val (nth 0 h x00) ∈ epc_EHD1 ->
  byte_val (nth 1 h x00) ∈ epc_EHD2 ->
  Forall (fun e => (length e.2 < 256)%nat) entries ->
  (length entries < Z.to_nat (byte_val count))%nat ->
  ((length tail < 2)%nat ->
   Decode (h ++ count :: flat_map entry_bytes entries ++ tail) = Raise IndexError)
  /\
  (forall e l partial,
     tail = e :: l :: partial ->
     Z.of_nat (length partial) < byte_val l ->
     Decode (h ++ count :: flat_map entry_bytes entries ++ tail)
     = if decide (S (length entries) = Z.to_nat (byte_val count))
       then Return (header_frame h
                      (map entry_property entries
                       ++ [mkProperty (byte_val e) (byte_val l) partial]))
       else Raise IndexError).
Proof.
  intros Hlen H1 H2 Hentries Hcount.
  set (byte := h ++ count :: flat_map entry_bytes entries ++ tail).
  assert (exists m, Z.to_nat (byte_val count) = (length entries + S m)%nat) as [m Hm]
    by (exists (Z.to_nat (byte_val count) - length entries - 1)%nat; lia).
  assert (byte = (h ++ [count]) ++ flat_map entry_bytes entries ++ tail) as Hbyte
    by (unfold byte; by rewrite <- app_assoc).
  assert (length (h ++ [count]) = 12%nat) as Hpre
    by (rewrite length_app, Hlen; done).
  assert (Decode byte
          = except_ValueError_quit
              (opc <- decode_properties byte (S m)
                        (length ((h ++ [count]) ++ flat_map entry_bytes entries))
                        (map entry_property entries) ;;
               Return (header_frame h opc))) as Hdec.
  { unfold DecodeEchonetMsg, byte. rewrite decode_frame_header by done.
    fold byte. rewrite Hm.
    pose proof (decode_properties_entries entries byte (h ++ [count]) tail
                  (S m) [] Hbyte Hentries) as Hloop.
    rewrite Hpre in Hloop. rewrite Hloop. simpl app.
    by rewrite length_app, Hpre. }
  rewrite Hdec. split.
  - intros Htail.
    rewrite (decode_properties_short byte _ tail);
      [done | by rewrite Hbyte, app_assoc | done].
  - intros e l partial -> Hcut.
    rewrite (decode_properties_cut byte _ e l partial);
      [| by rewrite Hbyte, app_assoc | done].
    destruct m as [|m].
    + by rewrite decide_True by lia.
    + by rewrite decide_False by lia.
Qed.

End DecoderChecks.

Lemma short_input_witness :
  (length [x10; x81; x00] < 12)%nat /\
  ((DecodeEchonetMsg sample_EHD1 sample_EHD2 [x10; x81; x00] = Raise IndexError \/
    DecodeEchonetMsg sample_EHD1 sample_EHD2 [x10; x81; x00] = Quit) /\
   (DecodeEchonetMsg sample_EHD1 sample_EHD2 [x10; x81; x00] = Quit
    <-> (exists b, [x10; x81; x00] !! 0%nat = Some b /\ byte_val b ∉ sample_EHD1) \/
        (exists b, [x10; x81; x00] !! 1%nat = Some b /\ byte_val b ∉ sample_EHD2))).
Proof.
  split; [simpl; lia|].
  apply (DecodeEchonetMsg_short_input sample_EHD1 sample_EHD2 [x10; x81; x00]).
  simpl; lia.
Defined.

(** C3, as it is worded, fails on the empty input and on a registered
    header that stops after three bytes: the indexing fault is not turned
    into an error of the decoder, it reaches the caller as it is. *)
Lemma short_input_index_error :
  (length ([] : list byte) < 12)%nat /\
  DecodeEchonetMsg sample_EHD1 sample_EHD2 [] = Raise IndexError /\
  DecodeEchonetMsg sample_EHD1 sample_EHD2 [x10; x81; x00] = Raise IndexError.
Proof.
  split; [simpl; lia|]. split; vm_compute; reflexivity.
Qed.

Lemma truncated_input_witness :
  length reply_header = 11%nat /\
  byte_val (nth 0 reply_header x00) ∈ sample_EHD1 /\
  byte_val (nth 1 reply_header x00) ∈ sample_EHD2 /\
  Forall (fun e : byte * list byte => (length e.2 < 256)%nat) [] /\
  (length ([] : list (byte * list byte)) < Z.to_nat (byte_val x01))%nat /\
  ((length [xd6; x05; x01; x02] < 2)%nat ->
   DecodeEchonetMsg sample_EHD1 sample_EHD2 cut_reply = Raise IndexError)
  /\
  (forall e l partial,
     [xd6; x05; x01; x02] = e :: l :: partial ->
     Z.of_nat (length partial) < byte_val l ->
     DecodeEchonetMsg sample_EHD1 sample_EHD2 cut_reply
     = if decide (S (length ([] : list (byte * list byte))) = Z.to_nat (byte_val x01))
       then Return (header_frame reply_header
                      (map entry_property []
                       ++ [mkProperty (byte_val e) (byte_val l) partial]))
       else Raise IndexError).
Proof.
  assert (byte_val (nth 0 reply_header x00) ∈ sample_EHD1) as H1
    by (apply (bool_decide_unpack _); vm_compute; exact I).
  assert (byte_val (nth 1 reply_header x00) ∈ sample_EHD2) as H2
    by (apply (bool_decide_unpack _); vm_compute; exact I).
  assert ((length ([] : list (byte * list byte)) < Z.to_nat (byte_val x01))%nat) as Hc
    by (vm_compute; lia).
  split; [reflexivity|]. split; [exact H1|]. split; [exact H2|].
  split; [constructor|]. split; [exact Hc|].
  exact (DecodeEchonetMsg_truncated_input sample_EHD1 sample_EHD2
           reply_header x01 [] [xd6; x05; x01; x02]
           eq_refl H1 H2 (Forall_nil_2 _) Hc).
Defined.

(** C4, as it is worded, fails on a reply whose property declares five
    payload bytes and carries two: a frame is returned, with the two
    bytes as the payload. The same reply with two properties declared
    fails, with the [IndexError] of the indexing. *)
Lemma cut_payload_returns_frame :
  DecodeEchonetMsg sample_EHD1 sample_EHD2 cut_reply
  = Return (mkFrame 0x10 0x81 0x01 0x0E 0xF0 0x01 0x05 0xFF 0x01 0x72
              [mkProperty 0xD6 5 [x01; x02]] None) /\
  DecodeEchonetMsg sample_EHD1 sample_EHD2
    (reply_header ++ [x02; xd6; x05; x01; x02]) = Raise IndexError.
Proof. split; vm_compute; reflexivity. Qed.

(** *** Discovery *)

Lemma receive_all_spec incoming : forall data,
  receive_all incoming data = data ++ map node_of incoming.
Proof.
  induction incoming as [|[payload server] incoming IH]; intros data; simpl.
  - by rewrite app_nil_r.
  - by rewrite IH, <- app_assoc.
Qed.

Section DiscoveryFacts.

Variable eojx_GROUP : gset Z.
Variable eojx_CLASS : gmap Z (gset Z).
Variable esv_CODES : gset Z.
Variable epc_EHD1 : gset Z.
Variable epc_EHD2 : gset Z.
Variable Device : Type.
Variable epc_CODE_property : Z -> Z -> Z -> option (list byte -> outcome identity).
Variable epc_CODE_class : Z -> Z -> option (frame -> string -> outcome Device).

Local Abbreviation Decode := (DecodeEchonetMsg epc_EHD1 epc_EHD2).
Local Abbreviation node :=
  (discover_node epc_EHD1 epc_EHD2 Device epc_CODE_property epc_CODE_class tx_payload).
Local Abbreviation nodes :=
  (discover_nodes epc_EHD1 epc_EHD2 Device epc_CODE_property epc_CODE_class tx_payload).
Local Abbreviation Discover' :=
  (Discover eojx_GROUP eojx_CLASS esv_CODES epc_EHD1 epc_EHD2 Device
     epc_CODE_property epc_CODE_class).

(** With the discovery codes registered, [Discover] gets to its loop over
    the replies, in arrival order. *)
Lemma Discover_loop incoming :
  discovery_registered eojx_GROUP eojx_CLASS esv_CODES ->
  Discover' incoming = nodes (map node_of incoming) [].
Proof.
  intros Hreg. unfold Discover. rewrite Build_tx_payload by done.
  cbn [obind]. unfold SendMessage.
  replace (fromhex "1081000105ff010ef0006201d600")
    with (Return [x10; x81; x00; x01; x05; xff; x01; x0e; xf0; x00; x62; x01; xd6; x00])
    by (vm_compute; reflexivity).
  cbn [obind]. by rewrite receive_all_spec.
Qed.

(** Replies that are processed without error leave the devices of those
    that pass the filter, and the loop goes on. *)
Lemma discover_nodes_app replies founds : forall rest eoa,
  Forall2 (fun r found => node r = Return found) replies founds ->
  nodes (replies ++ rest) eoa = nodes rest (eoa ++ omap id founds).
Proof.
  intros rest eoa Hall. revert eoa.
  induction Hall as [|r found replies founds Hr Hall IH]; intros eoa; simpl.
  - by rewrite app_nil_r.
  - rewrite Hr. cbn [obind]. rewrite IH. destruct found as [e|]; simpl.
    + by rewrite <- app_assoc.
    + done.
Qed.

Lemma discover_node_decode_error r :
  (forall e, Decode (payload r) = Raise e -> node r = Raise e) /\
  (Decode (payload r) = Quit -> node r = Quit).
Proof.
  unfold discover_node. split; [intros e|]; by intros ->.
Qed.

Lemma tx_payload_DEOJGC : getitem tx_payload "DEOJGC" = Return (VInt 0x0E).
Proof. vm_compute. reflexivity. Qed.

Lemma tx_payload_TID : getitem tx_payload "TID" = Return (VInt 0x01).
Proof. vm_compute. reflexivity. Qed.

(** A reply that decodes and carries another transaction id is skipped. *)
Lemma discover_node_other_TID r rx :
  Decode (payload r) = Return rx -> TID rx <> 0x01 -> node r = Return None.
Proof.
  intros Hdec Htid. unfold discover_node.
  rewrite Hdec, tx_payload_DEOJGC, tx_payload_TID. cbn [obind pyval_eqb].
  destruct (0x0E =? SEOJGC rx); cbn [negb]; [|done].
  destruct (0x01 =? TID rx) eqn:E; [lia|done].
Qed.

(** A reply that passes the filter and whose dispatch succeeds gives the
    device that the class constructor returns. *)
Lemma discover_node_match r rx p rest decode edt construct e :
  Decode (payload r) = Return rx ->
  SEOJGC rx = 0x0E -> TID rx = 0x01 ->
  OPC rx = p :: rest -> EPC p = 0xD6 ->
  epc_CODE_property (SEOJGC rx) (SEOJCC rx) (EPC p) = Some decode ->
  decode (EDT p) = Return edt ->
  epc_CODE_class (eojgc edt) (eojcc edt) = Some construct ->
  construct (set_instance rx (eojci edt)) (server r).1 = Return e ->
  node r = Return (Some e).
Proof.
  intros Hdec Hgc Htid Hopc Hepc Hprop Hedt Hclass He. unfold discover_node.
  rewrite Hdec, tx_payload_DEOJGC, tx_payload_TID. cbn [obind pyval_eqb].
  rewrite Hgc, Hepc in Hprop.
  rewrite Hgc, Htid, Hopc. cbn [negb Z.eqb Pos.eqb index lookup list_lookup obind].
  rewrite Hepc. cbn [negb Z.eqb Pos.eqb obind]. rewrite Hprop. cbn [obind].
  rewrite Hedt. cbn [obind]. rewrite Hclass. cbn [obind].
  by rewrite He.
Qed.

(** C5, as the code has it. An error on one reply is not swallowed. When
    the replies before it are processed without error, [Discover] ends the
    way the processing of the first failing reply ends, whatever comes
    after it: with the exception [DecodeEchonetMsg] raised, with the end of
    the process if [DecodeEchonetMsg] called [quit()], with the exception
    of the dispatch. Only when no reply fails does [Discover] return the
    devices of the replies that pass the filter, in arrival order. *)
Theorem Discover_stops_at_first_error before bad later founds :
  discovery_registered eojx_GROUP eojx_CLASS esv_CODES ->
  Forall2 (fun d found => node (node_of d) = Return found) before founds ->
  (forall e, Decode bad.1 = Raise e ->
             Discover' (before ++ bad :: later) = Raise e) /\
  (Decode bad.1 = Quit -> Discover' (before ++ bad :: later) = Quit) /\
  (forall e, node (node_of bad) = Raise e ->
             Discover' (before ++ bad :: later) = Raise e) /\
  Discover' before = Return (omap id founds).
Proof.
  intros Hreg Hbefore.
  assert (Forall2 (fun r found => node r = Return found)
            (map node_of before) founds) as Hnodes
    by (by apply Forall2_fmap_l).
  assert (forall o, node (node_of bad) = o ->
            Discover' (before ++ bad :: later)
            = (found <- o ;;
               nodes (map node_of later)
                 (match found with
                  | Some e => omap id founds ++ [e]
                  | None => omap id founds
                  end))) as Hstep.
  { intros o Ho. rewrite Discover_loop by done.
    rewrite map_app. simpl map.
    rewrite (discover_nodes_app _ founds) by done.
    simpl. by rewrite Ho. }
  destruct (discover_node_decode_error (node_of bad)) as [Hraise Hquit].
  repeat split.
  - intros e He. by rewrite (Hstep (Raise e)) by (by apply Hraise).
  - intros He. by rewrite (Hstep Quit) by (by apply Hquit).
  - intros e He. by rewrite (Hstep (Raise e)).
  - rewrite Discover_loop by done.
    rewrite <- (app_nil_r (map node_of before)).
    by rewrite (discover_nodes_app _ founds).
Qed.

(** C6. Of two replies that decode, one with the transaction id [1] of the
    request, the group [0x0E] of the node profile as its source and [0xD6]
    as its first property code, the other with another transaction id,
    [Discover] returns the one device that the dispatch constructs from the
    first, in whichever order they arrive, and raises nothing. *)
Theorem Discover_two_replies p1 s1 p2 s2 rx1 rx2 prop rest decode edt construct e :
  discovery_registered eojx_GROUP eojx_CLASS esv_CODES ->
  Decode p1 = Return rx1 ->
  TID rx1 = 0x01 -> SEOJGC rx1 = 0x0E ->
  OPC rx1 = prop :: rest -> EPC prop = 0xD6 ->
  epc_CODE_property (SEOJGC rx1) (SEOJCC rx1) (EPC prop) = Some decode ->
  decode (EDT prop) = Return edt ->
  epc_CODE_class (eojgc edt) (eojcc edt) = Some construct ->
  construct (set_instance rx1 (eojci edt)) s1.1 = Return e ->
  Decode p2 = Return rx2 ->
  TID rx2 <> 0x01 ->
  Discover' [(p1, s1); (p2, s2)] = Return [e] /\
  Discover' [(p2, s2); (p1, s1)] = Return [e].
Proof.
  intros Hreg Hdec1 Htid Hgc Hopc Hepc Hprop Hedt Hclass He Hdec2 Hother.
  assert (node (node_of (p1, s1)) = Return (Some e)) as H1
    by (eapply discover_node_match; eauto).
  assert (node (node_of (p2, s2)) = Return None) as H2
    by (eapply discover_node_other_TID; eauto).
  rewrite !Discover_loop by done. simpl.
  by rewrite H1, H2.
Qed.

(** C7. With no datagram before the timeout, [SendMessage] leaves its
    loop at the first [recvfrom] and returns the empty list, and [Discover]
    returns the empty list. *)
Theorem Discover_no_reply :
  discovery_registered eojx_GROUP eojx_CLASS esv_CODES ->
  SendMessage [] "1081000105ff010ef0006201d600" ENL_MULTICAST_ADDRESS = Return [] /\
  Discover' [] = Return [].
Proof.
  intros Hreg. split; [by vm_compute|]. by rewrite Discover_loop.
Qed.

End DiscoveryFacts.

Lemma stops_at_first_error_witness :
  discovery_registered sample_GROUP sample_CLASS sample_CODES /\
  Forall2 (fun d found => sample_node (node_of d) = Return found)
    [(other_TID_reply, node_b)] [None] /\
  (forall e, DecodeEchonetMsg sample_EHD1 sample_EHD2 (foreign_datagram, node_a).1 = Raise e ->
     sample_Discover ([(other_TID_reply, node_b)]
                      ++ (foreign_datagram, node_a) :: [(matching_reply, node_a)])
     = Raise e) /\
  (DecodeEchonetMsg sample_EHD1 sample_EHD2 (foreign_datagram, node_a).1 = Quit ->
     sample_Discover ([(other_TID_reply, node_b)]
                      ++ (foreign_datagram, node_a) :: [(matching_reply, node_a)])
     = Quit) /\
  (forall e, sample_node (node_of (foreign_datagram, node_a)) = Raise e ->
     sample_Discover ([(other_TID_reply, node_b)]
                      ++ (foreign_datagram, node_a) :: [(matching_reply, node_a)])
     = Raise e) /\
  sample_Discover [(other_TID_reply, node_b)] = Return (omap id [None]).
Proof.
  assert (Forall2 (fun d found => sample_node (node_of d) = Return found)
            [(other_TID_reply, node_b)] [None]) as Hbefore
    by (repeat constructor; vm_compute; reflexivity).
  split; [exact sample_discovery_registered|]. split; [exact Hbefore|].
  exact (Discover_stops_at_first_error
           sample_GROUP sample_CLASS sample_CODES sample_EHD1 sample_EHD2
           (frame * string) sample_property sample_class
           [(other_TID_reply, node_b)] (foreign_datagram, node_a)
           [(matching_reply, node_a)] [None]
           sample_discovery_registered Hbefore).
Defined.

(** C5, as it is worded, fails when a failing reply arrives before a valid
    one. Alone, the valid reply gives its device. After a datagram with an
    unregistered header byte, the process ends; after a reply of two bytes,
    the [IndexError] of the decoder ends [Discover]; after a reply that
    announces a class without constructor, the [KeyError] of the dispatch
    does. The device of the valid reply is lost each time. *)
Lemma failing_reply_aborts_discovery :
  sample_Discover [(matching_reply, node_a)] = Return [matching_device] /\
  sample_Discover [(foreign_datagram, node_b); (matching_reply, node_a)] = Quit /\
  sample_Discover [([x10; x81], node_b); (matching_reply, node_a)]
    = Raise IndexError /\
  sample_Discover [(unknown_class_reply, node_b); (matching_reply, node_a)]
    = Raise KeyError.
Proof. repeat split; vm_compute; reflexivity. Qed.

Lemma two_replies_witness :
  discovery_registered sample_GROUP sample_CLASS sample_CODES /\
  DecodeEchonetMsg sample_EHD1 sample_EHD2 matching_reply = Return matching_frame /\
  TID matching_frame = 0x01 /\ SEOJGC matching_frame = 0x0E /\
  OPC matching_frame = instance_list :: [] /\ EPC instance_list = 0xD6 /\
  sample_property (SEOJGC matching_frame) (SEOJCC matching_frame) (EPC instance_list)
    = Some node_profile_instances /\
  node_profile_instances (EDT instance_list) = Return (mkIdentity 0x01 0x30 0x01) /\
  sample_class 0x01 0x30 = Some keep_frame /\
  keep_frame (set_instance matching_frame 0x01) node_a.1 = Return matching_device /\
  DecodeEchonetMsg sample_EHD1 sample_EHD2 other_TID_reply = Return other_TID_frame /\
  TID other_TID_frame <> 0x01 /\
  sample_Discover [(matching_reply, node_a); (other_TID_reply, node_b)]
    = Return [matching_device] /\
  sample_Discover [(other_TID_reply, node_b); (matching_reply, node_a)]
    = Return [matching_device].
Proof.
  assert (DecodeEchonetMsg sample_EHD1 sample_EHD2 matching_reply
          = Return matching_frame) as Hdec1 by (vm_compute; reflexivity).
  assert (DecodeEchonetMsg sample_EHD1 sample_EHD2 other_TID_reply
          = Return other_TID_frame) as Hdec2 by (vm_compute; reflexivity).
  assert (TID other_TID_frame <> 0x01) as Hother by (simpl; lia).
  do 11 (split; [first [exact sample_discovery_registered | exact Hdec1
                        | exact Hdec2 | reflexivity]|]).
  split; [exact Hother|].
  exact (Discover_two_replies
           sample_GROUP sample_CLASS sample_CODES sample_EHD1 sample_EHD2
           (frame * string) sample_property sample_class
           matching_reply node_a other_TID_reply node_b
           matching_frame other_TID_frame instance_list []
           node_profile_instances (mkIdentity 0x01 0x30 0x01) keep_frame
           matching_device
           sample_discovery_registered Hdec1 eq_refl eq_refl eq_refl eq_refl
           eq_refl eq_refl eq_refl eq_refl Hdec2 Hother).
Defined.

Lemma no_reply_witness :
  discovery_registered sample_GROUP sample_CLASS sample_CODES /\
  SendMessage [] "1081000105ff010ef0006201d600" ENL_MULTICAST_ADDRESS = Return [] /\
  sample_Discover [] = Return [].
Proof.
  split; [exact sample_discovery_registered|].
  exact (Discover_no_reply
           sample_GROUP sample_CLASS sample_CODES sample_EHD1 sample_EHD2
           (frame * string) sample_property sample_class
           sample_discovery_registered).
Defined.

(** ** Further properties of the encoder *)

Lemma encode_property_complete message values :
  incomplete_property values = false ->
  exists m, encode_property message values = Return m.
Proof.
  unfold encode_property, incomplete_property, getitem.
  destruct (values !! "EPC") as [epc|]; [|done]. cbn [obind].
  destruct (values !! "PDC") as [pdc|]; [|by eexists].
  rewrite Z.gtb_ltb.
  destruct (values !! "EDT") as [edt|]; intros Hc.
  - destruct (0 <? pdc); by eexists.
  - rewrite Hc. by eexists.
Qed.

Lemma encode_property_incomplete message values :
  incomplete_property values = true ->
  encode_property message values = Raise KeyError.
Proof.
  unfold encode_property, incomplete_property, getitem.
  destruct (values !! "EPC") as [epc|]; [|done]. cbn [obind].
  destruct (values !! "PDC") as [pdc|]; [|by destruct (values !! "EDT")].
  rewrite Z.gtb_ltb.
  destruct (values !! "EDT") as [edt|]; [done|]. by intros ->.
Qed.

(** The property loop returns exactly when no dictionary is incomplete,
    and raises [KeyError] otherwise. *)
Lemma encode_properties_complete opc : forall message,
  (existsb incomplete_property opc = false ->
   exists m, encode_properties message opc = Return m) /\
  (existsb incomplete_property opc = true ->
   encode_properties message opc = Raise KeyError).
Proof.
  induction opc as [|values opc IH]; intros message.
  - split; [by eexists | done].
  - simpl existsb. simpl encode_properties.
    destruct (incomplete_property values) eqn:Hv; simpl orb.
    + split; [done|]. intros _.
      by rewrite encode_property_incomplete.
    + destruct (encode_property_complete message values Hv) as [m ->].
      cbn [obind]. apply IH.
Qed.

Section EncoderMore.

Variable eojx_GROUP : gset Z.
Variable eojx_CLASS : gmap Z (gset Z).
Variable esv_CODES : gset Z.

Local Abbreviation Build := (BuildEchonetMsg eojx_GROUP eojx_CLASS esv_CODES).
Local Abbreviation build := (build_message eojx_GROUP eojx_CLASS esv_CODES).


(** With the header fields there and every check passed, what is left of
    the call is the property loop. *)
Lemma build_message_checked data tid gc cc ic esv :
  data !! "TID" = Some (VInt tid) ->
  data !! "DEOJGC" = Some (VInt gc) ->
  data !! "DEOJCC" = Some (VInt cc) ->
  data !! "DEOJIC" = Some (VInt ic) ->
  data !! "ESV" = Some (VInt esv) ->
  gc ∈ eojx_GROUP -> class_registered eojx_CLASS gc cc -> esv ∈ esv_CODES ->
  build data
  = (opc <- (v <- getitem data "OPC" ;; as_list v) ;;
     message <- encode_properties
                  (Z.shiftl (header_message tid gc cc ic esv) 8
                   + Z.of_nat (length opc)) opc ;;
     Return (format_x message)).
Proof.
  intros Ht Hg Hc Hi He Hin1 (classes & Hcl & Hin2) Hin3.
  unfold build_message. unfold getitem at 1 2 3 4 5.
  rewrite Ht, Hg, Hc, Hi, He.
  cbn [obind as_int]. rewrite decide_True by done.
  cbn [obind]. rewrite Hcl. cbn [obind as_int].
  repeat (rewrite decide_True by done; cbn [obind]). done.
Qed.

Lemma Build_checked data tid gc cc ic esv :
  header_fields data tid gc cc ic esv ->
  tid <= 0xFFFF ->
  gc ∈ eojx_GROUP -> class_registered eojx_CLASS gc cc -> esv ∈ esv_CODES ->
  (Build data).2
  = except_ValueError_quit
      (opc <- (v <- getitem data "OPC" ;; as_list v) ;;
       message <- encode_properties
                    (Z.shiftl (header_message tid gc cc ic esv) 8
                     + Z.of_nat (length opc)) opc ;;
       Return (format_x message)).
Proof.
  intros (Ht & Hg & Hc & Hi & He) Htid Hin1 Hin2 Hin3.
  unfold BuildEchonetMsg, validate_TID.
  destruct Ht as [[Ht ->] | Ht]; rewrite Ht; cbn [snd obind as_int].
  - rewrite (build_message_checked _ 1 gc cc ic esv);
      [| by rewrite lookup_insert_eq | by rewrite lookup_insert_ne.. | done | done | done].
    unfold getitem. by rewrite lookup_insert_ne.
  - destruct (tid >? 0xFFFF) eqn:E; [lia|]. cbn [obind].
    by rewrite (build_message_checked _ tid gc cc ic esv).
Qed.

(** X1. With the header fields there and the checks passed,
    [BuildEchonetMsg] returns a text exactly when ['OPC'] is a list of
    property dictionaries none of which is incomplete, and raises a
    [KeyError] to its caller exactly when ['OPC'] is missing or one of
    them is incomplete. *)
Theorem BuildEchonetMsg_missing_key data tid gc cc ic esv :
  header_fields data tid gc cc ic esv ->
  tid <= 0xFFFF ->
  gc ∈ eojx_GROUP -> class_registered eojx_CLASS gc cc -> esv ∈ esv_CODES ->
  ((exists message, (Build data).2 = Return message)
   <-> exists opc, data !! "OPC" = Some (VList opc) /\
                   existsb incomplete_property opc = false) /\
  ((Build data).2 = Raise KeyError
   <-> data !! "OPC" = None \/
       exists opc, data !! "OPC" = Some (VList opc) /\
                   existsb incomplete_property opc = true).
Proof.
  intros Hfields Htid Hin1 Hin2 Hin3.
  rewrite (Build_checked data tid gc cc ic esv) by done.
  unfold getitem.
  destruct (data !! "OPC") as [[z|opc]|]; cbn [obind as_list except_ValueError_quit].
  - split; split; try done.
    + by intros [? ?].
    + by intros (? & [=] & _).
    + by intros [[=] | (? & [=] & _)].
  - set (m := Z.shiftl (header_message tid gc cc ic esv) 8 + Z.of_nat (length opc)).
    destruct (encode_properties_complete opc m) as [Hret Hkey].
    destruct (existsb incomplete_property opc) eqn:Hopc.
    + rewrite Hkey by done. cbn [obind except_ValueError_quit].
      split; split; try done.
      * by intros [? ?].
      * by intros (? & [= <-] & ?); congruence.
      * intros _. right. by exists opc.
    + destruct Hret as [r Hr]; [done|]. rewrite Hr.
      cbn [obind except_ValueError_quit].
      split; split; try done.
      * intros _. by exists opc.
      * intros _. by eexists.
      * intros [[=] | (? & [= <-] & ?)]. congruence.
  - split; split; try done.
    + by intros [? ?].
    + by intros (? & [=] & _).
    + intros _. by left.
Qed.


(** X3. A second call on the dictionary the first call left behind ends
    the same way and changes the dictionary no more: the default written
    into ['TID'] does not alter later calls. *)
Theorem BuildEchonetMsg_second_call data :
  BuildEchonetMsg eojx_GROUP eojx_CLASS esv_CODES
    (BuildEchonetMsg eojx_GROUP eojx_CLASS esv_CODES data).1
  = ((BuildEchonetMsg eojx_GROUP eojx_CLASS esv_CODES data).1,
     (BuildEchonetMsg eojx_GROUP eojx_CLASS esv_CODES data).2).
Proof.
  unfold BuildEchonetMsg, validate_TID.
  destruct (data !! "TID") as [t|] eqn:Ht; cbn [fst snd].
  - by rewrite Ht.
  - by rewrite lookup_insert_eq.
Qed.

End EncoderMore.

Lemma encode_property_normalize message values :
  encode_property message (normalize_property values)
  = encode_property message values.
Proof.
  unfold normalize_property, encode_property, getitem.
  destruct (values !! "PDC") as [pdc|] eqn:Hpdc.
  - rewrite Z.gtb_ltb. destruct (0 <? pdc) eqn:E.
    + by rewrite Hpdc, Z.gtb_ltb, E.
    + rewrite !lookup_delete_ne by done. rewrite Hpdc, Z.gtb_ltb, E. done.
  - rewrite lookup_insert_ne, lookup_delete_ne by done.
    rewrite lookup_insert_eq. done.
Qed.

Lemma encode_properties_normalize opc : forall message,
  encode_properties message (map normalize_property opc)
  = encode_properties message opc.
Proof.
  induction opc as [|values opc IH]; intros message; [done|].
  simpl. rewrite encode_property_normalize.
  destruct (encode_property message values); cbn [obind]; done.
Qed.

Section EncoderDefaults.

Variable eojx_GROUP : gset Z.
Variable eojx_CLASS : gmap Z (gset Z).
Variable esv_CODES : gset Z.

Local Abbreviation Build := (BuildEchonetMsg eojx_GROUP eojx_CLASS esv_CODES).
Local Abbreviation build := (build_message eojx_GROUP eojx_CLASS esv_CODES).

(** Two lists of property dictionaries of the same length that the loop
    encodes alike can stand for one another under ['OPC']. *)
Lemma build_message_OPC data opc opc' :
  data !! "OPC" = Some (VList opc) ->
  length opc' = length opc ->
  (forall message, encode_properties message opc' = encode_properties message opc) ->
  build (<["OPC" := VList opc']> data) = build data.
Proof.
  intros Hopc Hlen Henc. unfold build_message, getitem.
  rewrite !lookup_insert_ne by done. rewrite lookup_insert_eq, Hopc.
  repeat match goal with
  | |- obind ?m _ = obind ?m _ => destruct m; cbn [obind]; [|done..]
  | |- context [as_int ?v] => destruct v; cbn [obind as_int]; [|done]
  end.
  cbn [as_list obind]. by rewrite Hlen, Henc.
Qed.

(** X4. The payload of a property is read only under a positive ['PDC']:
    writing ['PDC'] = 0 where there is none, and removing ['EDT'] wherever
    ['PDC'] is absent or not positive, changes nothing in how the call
    ends or in the text it returns. *)
Theorem BuildEchonetMsg_property_defaults data opc :
  data !! "OPC" = Some (VList opc) ->
  (Build (<["OPC" := VList (map normalize_property opc)]> data)).2
  = (Build data).2.
Proof.
  intros Hopc.
  assert (forall d, d !! "OPC" = Some (VList opc) ->
            build (<["OPC" := VList (map normalize_property opc)]> d) = build d)
    as Hbuild.
  { intros d Hd. apply (build_message_OPC d opc); [done | by rewrite length_map |].
    intros message. apply encode_properties_normalize. }
  unfold BuildEchonetMsg, validate_TID.
  rewrite lookup_insert_ne by done.
  destruct (data !! "TID") as [t|]; cbn [snd].
  - by rewrite Hbuild.
  - rewrite insert_insert_ne by done. rewrite Hbuild; [done|].
    by rewrite lookup_insert_ne.
Qed.

End EncoderDefaults.

(** The header number of a negative transaction id is that of the id
    plus [0x10000] under the header bytes [10 80]. *)
Lemma be_acc_wrapped_header tid gc cc ic esv n :
  - 0x10000 <= tid < 0 -> 0 <= gc < 256 -> 0 <= cc < 256 -> 0 <= ic < 256 ->
  0 <= esv < 256 -> 0 <= n < 256 ->
  be_acc 0 (x10 :: x80 :: drop 2 (wire_header (0x10000 + tid) gc cc ic esv)
            ++ [byte_of_Z n])
  = Z.shiftl (header_message tid gc cc ic esv) 8 + n.
Proof.
  intros Htid Hgc Hcc Hic Hesv Hn. unfold wire_header, header_message.
  cbn [app drop].
  change (be_acc 0 (x10 :: x80 :: ?l)) with (be_acc 4224 l).
  rewrite drop_0, <- app_assoc, !be_acc_app.
  rewrite (be_acc_shift _ (int_to_bytes_big 2 _)), length_int_to_bytes_big.
  rewrite be_acc_int_to_bytes_big by (change (256 ^ Z.of_nat 2) with 65536; lia).
  unfold be_acc. simpl fold_left.
  rewrite !byte_val_of_Z by lia.
  change (byte_val x05) with 5. change (byte_val xff) with 255.
  change (byte_val x01) with 1.
  rewrite !Z.shiftl_mul_pow2 by lia.
  change (256 ^ Z.of_nat 2) with 65536. lia.
Qed.

Section EncoderWraps.

Variable eojx_GROUP : gset Z.
Variable eojx_CLASS : gmap Z (gset Z).
Variable esv_CODES : gset Z.
Variable epc_EHD1 : gset Z.
Variable epc_EHD2 : gset Z.

Local Abbreviation Build := (BuildEchonetMsg eojx_GROUP eojx_CLASS esv_CODES).
Local Abbreviation Decode := (DecodeEchonetMsg epc_EHD1 epc_EHD2).
Local Abbreviation well_formed := (well_formed_request eojx_GROUP eojx_CLASS esv_CODES).

(** X5. The check of ['TID'] has no lower bound. For a transaction id from
    [-0x10000] to [-1] in an otherwise well-formed request, the call
    returns the frame of the id plus [0x10000] with [0x80] in place of
    the second header byte [0x81]; the decoder, with [0x80] not
    registered, ends the process on it. *)
Theorem BuildEchonetMsg_negative_TID data tid :
  data !! "TID" = Some (VInt tid) ->
  - 0x10000 <= tid < 0 ->
  well_formed (<["TID" := VInt (0x10000 + tid)]> data) = true ->
  exists message bytes message' bytes',
    (Build data).2 = Return message /\
    fromhex message = Return bytes /\
    (Build (<["TID" := VInt (0x10000 + tid)]> data)).2 = Return message' /\
    fromhex message' = Return bytes' /\
    bytes = x10 :: x80 :: drop 2 bytes' /\
    (0x10 ∈ epc_EHD1 -> 0x80 ∉ epc_EHD2 -> Decode bytes = Quit).
Proof.
  intros Ht Htid Hwf.
  destruct (BuildEchonetMsg_well_formed _ _ _ _ Hwf)
    as (tid' & gc & cc & ic & esv & opc & Htid' & Hg & Hc & Hi & He & Ho
        & (_ & ? & ? & ? & ? & ?) & Hprops & Hbuild').
  rewrite lookup_insert_ne in Hg, Hc, Hi, He, Ho by done.
  assert (tid' = 0x10000 + tid) as ->.
  { rewrite <- Htid'. unfold request_TID. by rewrite lookup_insert_eq. }
  assert (exists classes, eojx_CLASS !! gc = Some classes /\ cc ∈ classes
                          /\ gc ∈ eojx_GROUP /\ esv ∈ esv_CODES)
    as (classes & Hcl & Hin2 & Hin1 & Hin3).
  { revert Hwf. unfold well_formed_request.
    rewrite lookup_insert_eq, !lookup_insert_ne by done.
    rewrite Hg, Hc, Hi, He, Ho.
    intros [_ Hrest]%andb_prop.
    repeat (apply andb_prop in Hrest as [Hrest ?]).
    repeat match goal with
    | H : bool_decide _ = true |- _ => apply bool_decide_eq_true in H
    | H : class_registeredb _ _ _ = true |- _ =>
        apply class_registeredb_spec in H; destruct H as (classes & ? & ?)
    end.
    by exists classes. }
  exists (string_of_digits
            (hex_pairs (x10 :: x80 ::
                        drop 2 (wire_bytes (0x10000 + tid) gc cc ic esv opc)))).
  eexists _, _, _.
  split; [|split; [apply fromhex_hex_pairs|
           split; [exact Hbuild'|split; [apply fromhex_hex_pairs|split; [done|]]]]].
  - unfold BuildEchonetMsg, validate_TID. rewrite Ht. cbn [snd obind as_int].
    destruct (tid >? 0xFFFF) eqn:E; [lia|]. cbn [obind].
    rewrite (build_message_checked _ _ _ data tid gc cc ic esv);
      [|done..| by exists classes | done].
    unfold getitem. rewrite Ho. cbn [obind as_list].
    rewrite encode_properties_wire by done. cbn [obind except_ValueError_quit].
    f_equal. rewrite <- be_acc_wrapped_header by lia.
    rewrite <- be_acc_app.
    replace ((x10 :: x80 :: drop 2 (wire_header (0x10000 + tid) gc cc ic esv)
              ++ [byte_of_Z (Z.of_nat (length opc))])
             ++ flat_map entry_bytes (map request_entry opc))
      with (x10 :: x80 :: drop 2 (wire_bytes (0x10000 + tid) gc cc ic esv opc))
      by (unfold wire_bytes, wire_header; cbn [app drop];
          rewrite !drop_0; by rewrite <- !app_assoc).
    apply (format_x_be_acc x10). by vm_compute.
  - intros Hehd1 Hehd2. unfold DecodeEchonetMsg, decode_frame, index.
    cbn [lookup list_lookup obind].
    rewrite decide_True by done. cbn [obind].
    rewrite decide_False by done. done.
Qed.

End EncoderWraps.

Lemma entry_of_request_inj v1 v2 :
  well_formed_property v1 = true -> well_formed_property v2 = true ->
  entry_property (request_entry v1) = entry_property (request_entry v2) ->
  same_entry v1 v2.
Proof.
  intros Hwf1 Hwf2 Heq.
  pose proof (well_formed_payload_length _ Hwf1) as Hlen1.
  pose proof (well_formed_payload_length _ Hwf2) as Hlen2.
  unfold entry_property, request_entry in Heq. simpl in Heq.
  injection Heq as Hepc Hpdc Hedt.
  unfold same_entry. split; [|split; [lia | done]].
  revert Hwf1 Hwf2 Hepc. unfold well_formed_property.
  destruct (v1 !! "EPC") as [e1|]; [|done].
  destruct (v2 !! "EPC") as [e2|]; [|done].
  intros [H1%is_byte_range _]%andb_prop [H2%is_byte_range _]%andb_prop.
  simpl. rewrite !byte_val_of_Z by done. by intros ->.
Qed.

Lemma entries_of_request_inj opc1 : forall opc2,
  forallb well_formed_property opc1 = true ->
  forallb well_formed_property opc2 = true ->
  map entry_property (map request_entry opc1)
  = map entry_property (map request_entry opc2) ->
  Forall2 same_entry opc1 opc2.
Proof.
  induction opc1 as [|v1 opc1 IH]; intros [|v2 opc2] Hwf1 Hwf2 Heq;
    try done; try constructor.
  all: cbn [map forallb] in Hwf1, Hwf2, Heq.
  all: apply andb_prop in Hwf1 as [? ?]; apply andb_prop in Hwf2 as [? ?].
  all: injection Heq as Hepc Hpdc Hedt Htail.
  - apply entry_of_request_inj; [done..|].
    unfold entry_property, request_entry. cbn [fst snd]. congruence.
  - by apply IH.
Qed.

Section EncoderInjective.

Variable eojx_GROUP : gset Z.
Variable eojx_CLASS : gmap Z (gset Z).
Variable esv_CODES : gset Z.

Local Abbreviation Build := (BuildEchonetMsg eojx_GROUP eojx_CLASS esv_CODES).
Local Abbreviation well_formed := (well_formed_request eojx_GROUP eojx_CLASS esv_CODES).

(** X6. Two well-formed requests for which the call returns the same text
    are the same frame: the same transaction id (1 standing for none),
    destination object and service code, and property by property the
    same code, declared length and payload bytes. *)
Theorem BuildEchonetMsg_injective d1 d2 :
  well_formed d1 = true -> well_formed d2 = true ->
  (Build d1).2 = (Build d2).2 ->
  request_TID d1 = request_TID d2 /\
  d1 !! "DEOJGC" = d2 !! "DEOJGC" /\
  d1 !! "DEOJCC" = d2 !! "DEOJCC" /\
  d1 !! "DEOJIC" = d2 !! "DEOJIC" /\
  d1 !! "ESV" = d2 !! "ESV" /\
  exists opc1 opc2,
    d1 !! "OPC" = Some (VList opc1) /\ d2 !! "OPC" = Some (VList opc2) /\
    Forall2 same_entry opc1 opc2.
Proof.
  intros Hwf1 Hwf2 Hsame.
  destruct (BuildEchonetMsg_well_formed _ _ _ _ Hwf1)
    as (t1 & g1 & c1 & i1 & e1 & opc1 & Ht1 & Hg1 & Hc1 & Hi1 & He1 & Ho1
        & (? & ? & ? & ? & ? & ?) & Hprops1 & Hbuild1).
  destruct (BuildEchonetMsg_well_formed _ _ _ _ Hwf2)
    as (t2 & g2 & c2 & i2 & e2 & opc2 & Ht2 & Hg2 & Hc2 & Hi2 & He2 & Ho2
        & (? & ? & ? & ? & ? & ?) & Hprops2 & Hbuild2).
  assert (wire_bytes t1 g1 c1 i1 e1 opc1 = wire_bytes t2 g2 c2 i2 e2 opc2) as Hwire.
  { pose proof (fromhex_hex_pairs (wire_bytes t1 g1 c1 i1 e1 opc1)) as Hfrom1.
    pose proof (fromhex_hex_pairs (wire_bytes t2 g2 c2 i2 e2 opc2)) as Hfrom2.
    rewrite Hbuild1, Hbuild2 in Hsame.
    set (s1 := string_of_digits _) in Hsame, Hfrom1.
    set (s2 := string_of_digits _) in Hsame, Hfrom2.
    assert (s1 = s2) as Htext by congruence.
    rewrite Htext in Hfrom1. congruence. }
  assert (0x10 ∈ ({[ 0x10 ]} : gset Z)) as Hehd1 by set_solver.
  assert (0x81 ∈ ({[ 0x81 ]} : gset Z)) as Hehd2 by set_solver.
  pose proof (DecodeEchonetMsg_wire {[ 0x10 ]} {[ 0x81 ]} t1 g1 c1 i1 e1 opc1
                Hehd1 Hehd2 ltac:(lia) Hprops1) as Hdec1.
  pose proof (DecodeEchonetMsg_wire {[ 0x10 ]} {[ 0x81 ]} t2 g2 c2 i2 e2 opc2
                Hehd1 Hehd2 ltac:(lia) Hprops2) as Hdec2.
  rewrite Hwire, Hdec2 in Hdec1.
  rewrite !header_frame_wire in Hdec1 by done.
  injection Hdec1 as -> -> -> -> -> Hentries.
  rewrite Hg1, Hg2, Hc1, Hc2, Hi1, Hi2, He1, He2.
  repeat split; try congruence.
  exists opc1, opc2. repeat split; try done.
  by apply entries_of_request_inj.
Qed.

End EncoderInjective.

(** ** Further properties of the decoder *)

Lemma index_outcome {A} (l : list A) i :
  (exists x, l !! i = Some x /\ index l i = Return x)
  \/ (l !! i = None /\ index l i = Raise IndexError).
Proof.
  unfold index. destruct (l !! i) as [x|]; [left; by exists x | by right].
Qed.

(** The property loop ends in a list or in the [IndexError] of an index
    past the end, and in nothing else. *)
Lemma decode_properties_outcome byte n : forall p acc,
  (exists opc, decode_properties byte n p acc = Return opc)
  \/ decode_properties byte n p acc = Raise IndexError.
Proof.
  induction n as [|n IH]; intros p acc; [left; by eexists|].
  simpl.
  destruct (index_outcome byte p) as [(e & _ & ->) | [_ ->]]; [|by right].
  cbn [obind].
  destruct (index_outcome byte (p + 1)) as [(l & _ & ->) | [_ ->]]; [|by right].
  cbn [obind]. apply IH.
Qed.

Lemma length_slice_le {A} (l : list A) lo n :
  (length (slice l lo (lo + n)) <= n)%nat.
Proof.
  unfold slice. rewrite length_take. lia.
Qed.

Lemma length_slice_inside {A} (l : list A) lo n :
  (lo + n <= length l)%nat -> length (slice l lo (lo + n)) = n.
Proof.
  intros Hin. unfold slice. rewrite length_take, length_drop. lia.
Qed.

(** What a list returned by the property loop looks like: one entry per
    pass, fields of one byte, no payload longer than declared, and every
    payload but the last complete; each pass needs its two bytes. *)
Lemma decode_properties_inv byte n : forall p acc opc,
  decode_properties byte n p acc = Return opc ->
  exists new,
    opc = acc ++ new /\ length new = n /\
    Forall property_in_range new /\
    Forall property_complete (removelast new) /\
    (n = 0%nat \/ (p + 2 * n <= length byte)%nat).
Proof.
  induction n as [|n IH]; intros p acc opc Hdec.
  - simpl in Hdec. injection Hdec as <-. exists [].
    rewrite app_nil_r. repeat split; try done. by left.
  - simpl in Hdec.
    destruct (index_outcome byte p) as [(e & He & Hie) | [_ Hie]];
      rewrite Hie in Hdec; [|done]. cbn [obind] in Hdec.
    destruct (index_outcome byte (p + 1)) as [(l & Hl & Hil) | [_ Hil]];
      rewrite Hil in Hdec; [|done]. cbn [obind] in Hdec.
    apply lookup_lt_Some in Hl.
    pose proof (byte_val_range e). pose proof (byte_val_range l).
    set (v := Z.to_nat (byte_val l)) in *.
    set (prop := mkProperty (byte_val e) (byte_val l)
                   (slice byte (p + 1 + 1) (p + 1 + 1 + v))) in *.
    destruct (IH _ _ _ Hdec) as (new & -> & Hlen & Hrange & Hcomplete & Hbound).
    exists (prop :: new). split; [by rewrite <- app_assoc|].
    split; [simpl; lia|].
    assert (property_in_range prop) as Hprop.
    { unfold property_in_range, prop. simpl.
      pose proof (length_slice_le byte (p + 1 + 1) v). lia. }
    split; [by constructor|]. split; [|right; lia].
    destruct new as [|q new]; [constructor|].
    change (removelast (prop :: q :: new)) with (prop :: removelast (q :: new)).
    constructor; [|done].
    unfold property_complete, prop. simpl.
    rewrite length_slice_inside; [lia|].
    simpl in Hlen. lia.
Qed.

Section DecoderMore.

Variable epc_EHD1 : gset Z.
Variable epc_EHD2 : gset Z.

Local Abbreviation Decode := (DecodeEchonetMsg epc_EHD1 epc_EHD2).

(** X7. On every input the decoder returns a frame, or lets the
    [IndexError] of an index past the end reach the caller, or ends the
    process; it raises nothing else. It ends the process exactly when the
    first byte is there and not registered in [EHD1], or the second byte
    is there and not registered in [EHD2]. *)
Theorem DecodeEchonetMsg_outcomes byte :
  ((exists rx, Decode byte = Return rx) \/
   Decode byte = Raise IndexError \/ Decode byte = Quit) /\
  (Decode byte = Quit
   <-> (exists b, byte !! 0%nat = Some b /\ byte_val b ∉ epc_EHD1) \/
       (exists b, byte !! 1%nat = Some b /\ byte_val b ∉ epc_EHD2)).
Proof.
  unfold DecodeEchonetMsg, decode_frame.
  destruct (index_outcome byte 0) as [(b0 & Hb0 & ->) | [Hb0 ->]];
    cbn [obind except_ValueError_quit].
  2:{ split; [by right; left|]. split; [done|].
      intros [(b & Hb & _) | (b & Hb & _)]; [congruence|].
      apply lookup_lt_Some in Hb. apply lookup_ge_None in Hb0. lia. }
  destruct (decide (byte_val b0 ∈ epc_EHD1)) as [H0|H0];
    cbn [obind except_ValueError_quit].
  2:{ split; [by right; right|]. split; [|done]. intros _. left. by exists b0. }
  destruct (index_outcome byte 1) as [(b1 & Hb1 & ->) | [Hb1 ->]];
    cbn [obind except_ValueError_quit].
  2:{ split; [by right; left|]. split; [done|].
      intros [(b & Hb & ?) | (b & Hb & _)]; congruence. }
  destruct (decide (byte_val b1 ∈ epc_EHD2)) as [H1|H1];
    cbn [obind except_ValueError_quit].
  2:{ split; [by right; right|]. split; [|done]. intros _. right. by exists b1. }
  assert (forall o : outcome frame,
            (exists rx, o = Return rx) \/ o = Raise IndexError ->
            ((exists rx, except_ValueError_quit o = Return rx) \/
             except_ValueError_quit o = Raise IndexError \/
             except_ValueError_quit o = Quit) /\
            (except_ValueError_quit o = Quit
             <-> (exists b, byte !! 0%nat = Some b /\ byte_val b ∉ epc_EHD1) \/
                 (exists b, byte !! 1%nat = Some b /\ byte_val b ∉ epc_EHD2))) as Hend.
  { intros o [[rx ->] | ->]; cbn [except_ValueError_quit].
    - split; [left; by exists rx|]. split; [done|].
      intros [(b & Hb & ?) | (b & Hb & ?)]; congruence.
    - split; [by right; left|]. split; [done|].
      intros [(b & Hb & ?) | (b & Hb & ?)]; congruence. }
  apply Hend.
  repeat match goal with
  | |- context [obind (index byte ?i) _] =>
      destruct (index_outcome byte i) as [(? & _ & ->) | [_ ->]];
      cbn [obind]; [|by right]
  end.
  match goal with
  | |- context [decode_properties byte ?n ?p ?acc] =>
      destruct (decode_properties_outcome byte n p acc) as [[opc ->] | ->]
  end; cbn [obind]; [left; by eexists | by right].
Qed.

(** X8. A frame that is all there is decoded field by field, and whatever
    follows its last declared entry is ignored: eleven header bytes with
    the first two registered, the count of the entries, the entries, and
    any further bytes give the frame of the header and the entries. *)
Theorem DecodeEchonetMsg_complete_frame h entries tail :
  length h = 11%nat ->
  byte_val (nth 0 h x00) ∈ epc_EHD1 ->
  byte_val (nth 1 h x00) ∈ epc_EHD2 ->
  (length entries < 256)%nat ->
  Forall (fun e => (length e.2 < 256)%nat) entries ->
  Decode (h ++ byte_of_Z (Z.of_nat (length entries))
            :: flat_map entry_bytes entries ++ tail)
  = Return (header_frame h (map entry_property entries)).
Proof.
  intros Hlen H1 H2 Hcount Hentries. unfold DecodeEchonetMsg.
  rewrite decode_frame_header by done.
  rewrite byte_val_of_Z by lia. rewrite Nat2Z.id.
  set (count := byte_of_Z (Z.of_nat (length entries))).
  pose proof (decode_properties_entries entries
                (h ++ count :: flat_map entry_bytes entries ++ tail)
                (h ++ [count]) tail 0%nat []) as Hdec.
  rewrite Nat.add_0_r in Hdec.
  replace (length (h ++ [count])) with 12%nat in Hdec
    by (rewrite length_app, Hlen; done).
  rewrite Hdec; [done | by rewrite <- app_assoc | done].
Qed.

(** X9. Every frame the decoder returns has header fields of one byte, a
    transaction id of at most [0xFFFF] and no ['instance']; it has as many
    entries as byte 11 says; each entry has a code and a length of one
    byte and a payload no longer than that length, every payload but the
    last being complete; and the input had 12 bytes and 2 more for each
    entry at least. *)
Theorem DecodeEchonetMsg_frame_invariants byte rx :
  Decode byte = Return rx ->
  header_in_range rx /\
  (exists count, byte !! 11%nat = Some count /\
                 length (OPC rx) = Z.to_nat (byte_val count)) /\
  Forall property_in_range (OPC rx) /\
  Forall property_complete (removelast (OPC rx)) /\
  (12 + 2 * length (OPC rx) <= length byte)%nat.
Proof.
  unfold DecodeEchonetMsg, decode_frame. intros Hdec.
  repeat match type of Hdec with
  | context [obind (index byte ?i) _] =>
      destruct (index_outcome byte i) as [(? & ? & Hi) | [_ Hi]];
      rewrite Hi in Hdec; clear Hi; cbn [obind] in Hdec; [|done]
  | context [decide ?P] =>
      destruct (decide P); cbn [obind except_ValueError_quit] in Hdec; [|done]
  end.
  match type of Hdec with
  | context [decode_properties byte ?n ?p ?acc] =>
      destruct (decode_properties byte n p acc) as [opc|err|] eqn:Hopc;
      cbn [obind except_ValueError_quit] in Hdec; [| by destruct err |done]
  end.
  injection Hdec as <-.
  destruct (decode_properties_inv _ _ _ _ _ Hopc)
    as (new & -> & Hlen & Hrange & Hcomplete & Hbound).
  rewrite app_nil_l in *. cbn [OPC].
  repeat match goal with
  | H : byte !! _ = Some ?b |- _ =>
      lazymatch goal with
      | _ : 0 <= byte_val b < 256 |- _ => fail
      | _ => pose proof (byte_val_range b)
      end
  end.
  assert (0 <= int_from_bytes_big (slice byte 2 4) <= 0xFFFF) as Htid.
  { pose proof (be_acc_bounds (slice byte 2 4)) as Hb.
    pose proof (length_slice_le byte 2 2) as Hl. simpl in Hl.
    unfold int_from_bytes_big. fold (be_acc 0 (slice byte 2 4)).
    assert (256 ^ Z.of_nat (length (slice byte 2 4)) <= 256 ^ 2)
      by (apply Z.pow_le_mono_r; lia).
    change (256 ^ 2) with 65536 in *. lia. }
  split; [unfold header_in_range; simpl; repeat split; lia|].
  split; [eexists; split; [eassumption | done]|].
  split; [done|]. split; [done|].
  match goal with H : byte !! 11%nat = Some _ |- _ => apply lookup_lt_Some in H end.
  destruct Hbound as [Hz | Hb]; lia.
Qed.

End DecoderMore.

(** ** Further properties of the transport and of discovery *)

Lemma length_omap_id {A} (founds : list (option A)) :
  (length (omap id founds) <= length founds)%nat.
Proof.
  induction founds as [|[x|] founds IH]; simpl.
  - lia.
  - apply le_n_S, IH.
  - apply le_S, IH.
Qed.

Section DiscoveryMore.

Variable eojx_GROUP : gset Z.
Variable eojx_CLASS : gmap Z (gset Z).
Variable esv_CODES : gset Z.
Variable epc_EHD1 : gset Z.
Variable epc_EHD2 : gset Z.
Variable Device : Type.
Variable epc_CODE_property : Z -> Z -> Z -> option (list byte -> outcome identity).
Variable epc_CODE_class : Z -> Z -> option (frame -> string -> outcome Device).

Local Abbreviation Build := (BuildEchonetMsg eojx_GROUP eojx_CLASS esv_CODES).
Local Abbreviation well_formed := (well_formed_request eojx_GROUP eojx_CLASS esv_CODES).
Local Abbreviation Decode := (DecodeEchonetMsg epc_EHD1 epc_EHD2).
Local Abbreviation node :=
  (discover_node epc_EHD1 epc_EHD2 Device epc_CODE_property epc_CODE_class tx_payload).
Local Abbreviation nodes :=
  (discover_nodes epc_EHD1 epc_EHD2 Device epc_CODE_property epc_CODE_class tx_payload).
Local Abbreviation Discover' :=
  (Discover eojx_GROUP eojx_CLASS esv_CODES epc_EHD1 epc_EHD2 Device
     epc_CODE_property epc_CODE_class).


(** [Discover] up to its loop, whatever the registries hold. *)
Lemma Discover_unfold incoming :
  Discover' incoming
  = (message <- (Build tx_payload).2 ;;
     fromhex message ;;;
     nodes (map node_of incoming) []).
Proof.
  unfold Discover, BuildEchonetMsg, validate_TID.
  replace (tx_payload !! "TID") with (Some (VInt 0x01)) by (vm_compute; reflexivity).
  cbn [snd as_int obind]. change (0x01 >? 0xFFFF) with false. cbn [obind].
  destruct (except_ValueError_quit _) as [message| |]; cbn [obind]; try done.
  unfold SendMessage.
  destruct (fromhex message); cbn [obind]; try done.
  by rewrite receive_all_spec.
Qed.

Lemma discover_nodes_skip r later : forall before eoa,
  node r = Return None ->
  nodes (before ++ r :: later) eoa = nodes (before ++ later) eoa.
Proof.
  intros before eoa Hr. revert eoa.
  induction before as [|a before IH]; intros eoa; simpl.
  - by rewrite Hr.
  - destruct (node a) as [found| |]; cbn [obind]; [apply IH | done..].
Qed.

Lemma discover_node_filtered r rx :
  Decode (payload r) = Return rx -> filtered_out rx -> node r = Return None.
Proof.
  intros Hdec Hout. unfold discover_node.
  rewrite Hdec, tx_payload_DEOJGC, tx_payload_TID. cbn [obind pyval_eqb].
  destruct (0x0E =? SEOJGC rx) eqn:Hgc; cbn [negb]; [|done].
  destruct (0x01 =? TID rx) eqn:Htid; cbn [negb]; [|done].
  destruct Hout as [? | [? | (p & rest & Hopc & Hepc)]]; [lia..|].
  rewrite Hopc. cbn [index lookup list_lookup obind].
  destruct (EPC p =? 0xd6) eqn:E; [lia|done].
Qed.

(** X11. A reply that decodes and has another source group than [0x0E],
    another transaction id than 1, or another first property code than
    [0xD6] is dropped: wherever it arrives among the others, [Discover]
    ends as it does without it. *)
Theorem Discover_skips_filtered_reply before p s later rx :
  Decode p = Return rx -> filtered_out rx ->
  Discover' (before ++ (p, s) :: later) = Discover' (before ++ later).
Proof.
  intros Hdec Hout. rewrite !Discover_unfold, !map_app. simpl map.
  rewrite discover_nodes_skip; [done|].
  by apply (discover_node_filtered _ rx).
Qed.

Lemma discover_node_no_property r rx :
  Decode (payload r) = Return rx ->
  SEOJGC rx = 0x0E -> TID rx = 0x01 -> OPC rx = [] ->
  node r = Raise IndexError.
Proof.
  intros Hdec Hgc Htid Hopc. unfold discover_node.
  rewrite Hdec, tx_payload_DEOJGC, tx_payload_TID. cbn [obind pyval_eqb].
  by rewrite Hgc, Htid, Hopc.
Qed.

(** X12. A reply from group [0x0E] with the transaction id 1 and no
    property at all passes the first two tests of the filter and fails
    the third with the [IndexError] of [rx['OPC'][0]]: after replies that
    were processed without error, [Discover] ends with that error. *)
Theorem Discover_reply_without_property before founds p s later rx :
  discovery_registered eojx_GROUP eojx_CLASS esv_CODES ->
  Forall2 (fun d found => node (node_of d) = Return found) before founds ->
  Decode p = Return rx ->
  SEOJGC rx = 0x0E -> TID rx = 0x01 -> OPC rx = [] ->
  Discover' (before ++ (p, s) :: later) = Raise IndexError.
Proof.
  intros Hreg Hbefore Hdec Hgc Htid Hopc.
  rewrite (Discover_loop eojx_GROUP eojx_CLASS esv_CODES) by done.
  rewrite map_app. simpl map.
  rewrite (discover_nodes_app _ _ _ _ _ _ founds) by (by apply Forall2_fmap_l).
  simpl. by rewrite (discover_node_no_property _ rx).
Qed.

Lemma discover_nodes_inv replies : forall eoa devices,
  nodes replies eoa = Return devices ->
  exists founds,
    Forall2 (fun r found => node r = Return found) replies founds /\
    devices = eoa ++ omap id founds.
Proof.
  induction replies as [|r replies IH]; intros eoa devices Hret; simpl in Hret.
  - injection Hret as <-. exists []. split; [constructor | by rewrite app_nil_r].
  - destruct (node r) as [found| |] eqn:Hr; cbn [obind] in Hret; try done.
    destruct (IH _ _ Hret) as (founds & Hall & ->).
    exists (found :: founds). split; [by constructor|].
    destruct found as [e|]; simpl; [by rewrite <- app_assoc | done].
Qed.

(** X13. With the discovery codes registered, [Discover] returns a list
    exactly when every reply is processed without error; the list then
    holds the devices of the replies that pass the filter, in arrival
    order, so never more devices than replies. *)
Theorem Discover_returns incoming devices :
  discovery_registered eojx_GROUP eojx_CLASS esv_CODES ->
  (Discover' incoming = Return devices
   <-> exists founds,
         Forall2 (fun d found => node (node_of d) = Return found) incoming founds /\
         devices = omap id founds) /\
  (Discover' incoming = Return devices ->
   (length devices <= length incoming)%nat).
Proof.
  intros Hreg.
  assert (Discover' incoming = Return devices
          <-> exists founds,
                Forall2 (fun d found => node (node_of d) = Return found)
                  incoming founds /\
                devices = omap id founds) as Hiff.
  { rewrite (Discover_loop eojx_GROUP eojx_CLASS esv_CODES) by done. split.
    - intros Hret. destruct (discover_nodes_inv _ _ _ Hret) as (founds & Hall & ->).
      exists founds. split; [by apply Forall2_fmap_l in Hall | done].
    - intros (founds & Hall & ->).
      rewrite <- (app_nil_r (map node_of incoming)).
      rewrite (discover_nodes_app _ _ _ _ _ _ founds) by (by apply Forall2_fmap_l).
      done. }
  split; [exact Hiff|]. intros Hret.
  apply Hiff in Hret as (founds & Hall & ->).
  rewrite (Forall2_length _ _ _ Hall). apply length_omap_id.
Qed.

(** X14. When every registered group has its class registry and one of
    the codes of the discovery request is not registered, [Discover] ends
    the process in [BuildEchonetMsg], before anything is sent or
    received. *)
Theorem Discover_unregistered_codes incoming :
  (forall g, g ∈ eojx_GROUP -> is_Some (eojx_CLASS !! g)) ->
  ~ discovery_registered eojx_GROUP eojx_CLASS esv_CODES ->
  Discover' incoming = Quit.
Proof.
  intros Hcomplete Hnot. rewrite Discover_unfold.
  assert ((Build tx_payload).2 = Quit) as ->; [|done].
  unfold BuildEchonetMsg, validate_TID.
  replace (tx_payload !! "TID") with (Some (VInt 0x01)) by (vm_compute; reflexivity).
  cbn [snd as_int obind]. change (0x01 >? 0xFFFF) with false. cbn [obind].
  apply (build_message_quits _ _ _ tx_payload 0x01 0x0E 0xF0 0x00 0x62);
    [by vm_compute.. | done |].
  destruct (decide (0x0E ∈ eojx_GROUP)) as [Hg|Hg]; [|by left].
  destruct (class_registeredb eojx_CLASS 0x0E 0xF0) eqn:Hc.
  - apply class_registeredb_spec in Hc.
    destruct (decide (0x62 ∈ esv_CODES)) as [He|He]; [|by right; right].
    by destruct Hnot.
  - right; left. intros Hc'%class_registeredb_spec. congruence.
Qed.

End DiscoveryMore.

Section EncoderCarries.

Variable eojx_GROUP : gset Z.
Variable eojx_CLASS : gmap Z (gset Z).
Variable esv_CODES : gset Z.
Variable epc_EHD1 : gset Z.
Variable epc_EHD2 : gset Z.

Local Abbreviation Build := (BuildEchonetMsg eojx_GROUP eojx_CLASS esv_CODES).
Local Abbreviation Decode := (DecodeEchonetMsg epc_EHD1 epc_EHD2).
Local Abbreviation well_formed := (well_formed_request eojx_GROUP eojx_CLASS esv_CODES).

(** X15. ['DEOJIC'] is appended without any check. An instance code from
    256 to 511, in a request that is well-formed with 256 less and whose
    class code is below 255, goes out as the next class code with the
    instance code less 256: the decoder reads the frame back with both
    fields changed. *)
Theorem BuildEchonetMsg_instance_carries data cc ic :
  data !! "DEOJCC" = Some (VInt cc) ->
  data !! "DEOJIC" = Some (VInt ic) ->
  256 <= ic < 512 -> cc < 255 ->
  well_formed (<["DEOJIC" := VInt (ic - 256)]> data) = true ->
  0x10 ∈ epc_EHD1 -> 0x81 ∈ epc_EHD2 ->
  exists message bytes rx,
    (Build data).2 = Return message /\
    fromhex message = Return bytes /\
    Decode bytes = Return rx /\
    DEOJCC rx = cc + 1 /\ DEOJIC rx = ic - 256.
Proof.
  intros Hcc Hic Hrange Hclass Hwf Hehd1 Hehd2.
  destruct (BuildEchonetMsg_well_formed _ _ _ _ Hwf)
    as (tid & gc & cc' & ic' & esv & opc & Htid & Hg & Hc & Hi & He & Ho
        & (? & ? & ? & ? & ? & ?) & Hprops & _).
  rewrite lookup_insert_eq in Hi. injection Hi as <-.
  rewrite lookup_insert_ne in Hg, Hc, He, Ho by done.
  assert (cc' = cc) as -> by congruence.
  assert (exists classes, eojx_CLASS !! gc = Some classes /\ cc ∈ classes
                          /\ gc ∈ eojx_GROUP /\ esv ∈ esv_CODES)
    as (classes & Hcl & Hin2 & Hin1 & Hin3).
  { revert Hwf. unfold well_formed_request.
    rewrite lookup_insert_eq, !lookup_insert_ne by done.
    rewrite Hg, Hc, He, Ho.
    intros [_ Hrest]%andb_prop.
    repeat (apply andb_prop in Hrest as [Hrest ?]).
    repeat match goal with
    | H : bool_decide _ = true |- _ => apply bool_decide_eq_true in H
    | H : class_registeredb _ _ _ = true |- _ =>
        apply class_registeredb_spec in H; destruct H as (classes & ? & ?)
    end.
    by exists classes. }
  assert (header_fields data tid gc cc ic esv) as Hfields.
  { unfold header_fields. repeat split; try done.
    revert Htid. unfold request_TID. rewrite lookup_insert_ne by done.
    destruct (data !! "TID") as [[t|l]|] eqn:Ht.
    - intros <-. by right.
    - revert Hwf. unfold well_formed_request.
      by rewrite lookup_insert_ne, Ht by done.
    - intros <-. by left. }
  exists (string_of_digits
            (hex_pairs (wire_bytes tid gc (cc + 1) (ic - 256) esv opc))).
  eexists _, _.
  split; [|split; [apply fromhex_hex_pairs|
           split; [apply DecodeEchonetMsg_wire; done|]]].
  - rewrite (Build_checked _ _ _ data tid gc cc ic esv);
      [| done | lia | done | by exists classes | done].
    unfold getitem. rewrite Ho. cbn [obind as_list].
    rewrite encode_properties_wire by done. cbn [obind except_ValueError_quit].
    f_equal.
    replace (Z.shiftl (header_message tid gc cc ic esv) 8 + Z.of_nat (length opc))
      with (be_acc 0 (wire_header tid gc (cc + 1) (ic - 256) esv
                      ++ [byte_of_Z (Z.of_nat (length opc))])).
    2:{ rewrite be_acc_wire_header by lia. unfold header_message.
        rewrite !Z.shiftl_mul_pow2 by lia. lia. }
    rewrite <- be_acc_app, <- app_assoc.
    apply (format_x_be_acc x10). by vm_compute.
  - rewrite header_frame_wire by lia. done.
Qed.

End EncoderCarries.

(** ** The further properties on the sample environment *)

Lemma sample_header_fields :
  header_fields incomplete_request 0x01 0x0E 0xF0 0x00 0x62.
Proof.
  unfold header_fields. split; [right|]; repeat split; vm_compute; reflexivity.
Defined.

Lemma missing_key_witness :
  header_fields incomplete_request 0x01 0x0E 0xF0 0x00 0x62 /\
  0x01 <= 0xFFFF /\
  discovery_registered sample_GROUP sample_CLASS sample_CODES /\
  ((exists message,
      (BuildEchonetMsg sample_GROUP sample_CLASS sample_CODES incomplete_request).2
      = Return message)
   <-> exists opc, incomplete_request !! "OPC" = Some (VList opc) /\
                   existsb incomplete_property opc = false) /\
  ((BuildEchonetMsg sample_GROUP sample_CLASS sample_CODES incomplete_request).2
   = Raise KeyError
   <-> incomplete_request !! "OPC" = None \/
       exists opc, incomplete_request !! "OPC" = Some (VList opc) /\
                   existsb incomplete_property opc = true).
Proof.
  split; [exact sample_header_fields|]. split; [lia|].
  split; [exact sample_discovery_registered|].
  destruct sample_discovery_registered as (Hg & Hc & He).
  exact (BuildEchonetMsg_missing_key sample_GROUP sample_CLASS sample_CODES
           incomplete_request 0x01 0x0E 0xF0 0x00 0x62
           sample_header_fields ltac:(lia) Hg Hc He).
Defined.

(** The request with the incomplete property, run. *)
Example missing_key_run :
  (BuildEchonetMsg sample_GROUP sample_CLASS sample_CODES incomplete_request).2
  = Raise KeyError.
Proof. by vm_compute. Qed.


Lemma property_defaults_witness :
  sample_request !! "OPC" = Some (VList sample_properties) /\
  (BuildEchonetMsg sample_GROUP sample_CLASS sample_CODES
     (<["OPC" := VList (map normalize_property sample_properties)]> sample_request)).2
  = (BuildEchonetMsg sample_GROUP sample_CLASS sample_CODES sample_request).2.
Proof.
  assert (sample_request !! "OPC" = Some (VList sample_properties)) as Hopc
    by (vm_compute; reflexivity).
  split; [exact Hopc|].
  exact (BuildEchonetMsg_property_defaults sample_GROUP sample_CLASS sample_CODES
           sample_request sample_properties Hopc).
Defined.

Lemma negative_TID_witness :
  negative_TID_request !! "TID" = Some (VInt (-1)) /\
  (- 0x10000 <= -1 < 0) /\
  well_formed_request sample_GROUP sample_CLASS sample_CODES
    (<["TID" := VInt (0x10000 + -1)]> negative_TID_request) = true /\
  exists message bytes message' bytes',
    (BuildEchonetMsg sample_GROUP sample_CLASS sample_CODES negative_TID_request).2
      = Return message /\
    fromhex message = Return bytes /\
    (BuildEchonetMsg sample_GROUP sample_CLASS sample_CODES
       (<["TID" := VInt (0x10000 + -1)]> negative_TID_request)).2 = Return message' /\
    fromhex message' = Return bytes' /\
    bytes = x10 :: x80 :: drop 2 bytes' /\
    (0x10 ∈ sample_EHD1 -> 0x80 ∉ sample_EHD2 ->
     DecodeEchonetMsg sample_EHD1 sample_EHD2 bytes = Quit).
Proof.
  assert (negative_TID_request !! "TID" = Some (VInt (-1))) as Ht
    by (vm_compute; reflexivity).
  assert (well_formed_request sample_GROUP sample_CLASS sample_CODES
            (<["TID" := VInt (0x10000 + -1)]> negative_TID_request) = true) as Hwf
    by (vm_compute; reflexivity).
  split; [exact Ht|]. split; [lia|]. split; [exact Hwf|].
  exact (BuildEchonetMsg_negative_TID sample_GROUP sample_CLASS sample_CODES
           sample_EHD1 sample_EHD2 negative_TID_request (-1) Ht ltac:(lia) Hwf).
Defined.

(** The request with the transaction id [-1], run: the header reads
    [10 80] and the id [ff ff]. *)
Example negative_TID_run :
  (BuildEchonetMsg sample_GROUP sample_CLASS sample_CODES negative_TID_request).2
  = Return "1080ffff05ff010ef0006201d600"%string.
Proof. by vm_compute. Qed.

Lemma injective_witness :
  well_formed_request sample_GROUP sample_CLASS sample_CODES tx_payload = true /\
  well_formed_request sample_GROUP sample_CLASS sample_CODES
    (delete "TID" tx_payload) = true /\
  (BuildEchonetMsg sample_GROUP sample_CLASS sample_CODES tx_payload).2
  = (BuildEchonetMsg sample_GROUP sample_CLASS sample_CODES (delete "TID" tx_payload)).2 /\
  request_TID tx_payload = request_TID (delete "TID" tx_payload) /\
  tx_payload !! "DEOJGC" = delete "TID" tx_payload !! "DEOJGC" /\
  tx_payload !! "DEOJCC" = delete "TID" tx_payload !! "DEOJCC" /\
  tx_payload !! "DEOJIC" = delete "TID" tx_payload !! "DEOJIC" /\
  tx_payload !! "ESV" = delete "TID" tx_payload !! "ESV" /\
  exists opc1 opc2,
    tx_payload !! "OPC" = Some (VList opc1) /\
    delete "TID" tx_payload !! "OPC" = Some (VList opc2) /\
    Forall2 same_entry opc1 opc2.
Proof.
  assert (well_formed_request sample_GROUP sample_CLASS sample_CODES tx_payload = true)
    as Hwf1 by (vm_compute; reflexivity).
  assert (well_formed_request sample_GROUP sample_CLASS sample_CODES
            (delete "TID" tx_payload) = true) as Hwf2 by (vm_compute; reflexivity).
  assert ((BuildEchonetMsg sample_GROUP sample_CLASS sample_CODES tx_payload).2
          = (BuildEchonetMsg sample_GROUP sample_CLASS sample_CODES
               (delete "TID" tx_payload)).2) as Hsame by (vm_compute; reflexivity).
  split; [exact Hwf1|]. split; [exact Hwf2|]. split; [exact Hsame|].
  exact (BuildEchonetMsg_injective sample_GROUP sample_CLASS sample_CODES
           tx_payload (delete "TID" tx_payload) Hwf1 Hwf2 Hsame).
Defined.

Lemma complete_frame_witness :
  length reply_header = 11%nat /\
  byte_val (nth 0 reply_header x00) ∈ sample_EHD1 /\
  byte_val (nth 1 reply_header x00) ∈ sample_EHD2 /\
  (length [(xd6, [x01; x01; x30; x01])] < 256)%nat /\
  Forall (fun e : byte * list byte => (length e.2 < 256)%nat)
    [(xd6, [x01; x01; x30; x01])] /\
  DecodeEchonetMsg sample_EHD1 sample_EHD2
    (reply_header ++ byte_of_Z (Z.of_nat (length [(xd6, [x01; x01; x30; x01])]))
       :: flat_map entry_bytes [(xd6, [x01; x01; x30; x01])] ++ [xff; xff])
  = Return (header_frame reply_header
              (map entry_property [(xd6, [x01; x01; x30; x01])])).
Proof.
  assert (byte_val (nth 0 reply_header x00) ∈ sample_EHD1) as H1
    by (apply (bool_decide_unpack _); vm_compute; exact I).
  assert (byte_val (nth 1 reply_header x00) ∈ sample_EHD2) as H2
    by (apply (bool_decide_unpack _); vm_compute; exact I).
  assert (Forall (fun e : byte * list byte => (length e.2 < 256)%nat)
            [(xd6, [x01; x01; x30; x01])]) as Hentries
    by (repeat constructor; simpl; lia).
  split; [reflexivity|]. split; [exact H1|]. split; [exact H2|].
  split; [simpl; lia|]. split; [exact Hentries|].
  exact (DecodeEchonetMsg_complete_frame sample_EHD1 sample_EHD2
           reply_header [(xd6, [x01; x01; x30; x01])] [xff; xff]
           eq_refl H1 H2 ltac:(simpl; lia) Hentries).
Defined.

Lemma frame_invariants_witness :
  DecodeEchonetMsg sample_EHD1 sample_EHD2 cut_reply
  = Return (mkFrame 0x10 0x81 0x01 0x0E 0xF0 0x01 0x05 0xFF 0x01 0x72
              [mkProperty 0xD6 5 [x01; x02]] None) /\
  header_in_range
    (mkFrame 0x10 0x81 0x01 0x0E 0xF0 0x01 0x05 0xFF 0x01 0x72
       [mkProperty 0xD6 5 [x01; x02]] None) /\
  (exists count, cut_reply !! 11%nat = Some count /\
                 length [mkProperty 0xD6 5 [x01; x02]] = Z.to_nat (byte_val count)) /\
  Forall property_in_range [mkProperty 0xD6 5 [x01; x02]] /\
  Forall property_complete (removelast [mkProperty 0xD6 5 [x01; x02]]) /\
  (12 + 2 * length [mkProperty 0xD6 5 [x01; x02]] <= length cut_reply)%nat.
Proof.
  assert (DecodeEchonetMsg sample_EHD1 sample_EHD2 cut_reply
          = Return (mkFrame 0x10 0x81 0x01 0x0E 0xF0 0x01 0x05 0xFF 0x01 0x72
                      [mkProperty 0xD6 5 [x01; x02]] None)) as Hdec
    by (vm_compute; reflexivity).
  split; [exact Hdec|].
  exact (DecodeEchonetMsg_frame_invariants sample_EHD1 sample_EHD2 cut_reply _ Hdec).
Defined.


Lemma skips_filtered_reply_witness :
  DecodeEchonetMsg sample_EHD1 sample_EHD2 other_TID_reply = Return other_TID_frame /\
  filtered_out other_TID_frame /\
  sample_Discover ([(matching_reply, node_a)] ++ (other_TID_reply, node_b) :: [])
  = sample_Discover ([(matching_reply, node_a)] ++ []).
Proof.
  assert (DecodeEchonetMsg sample_EHD1 sample_EHD2 other_TID_reply
          = Return other_TID_frame) as Hdec by (vm_compute; reflexivity).
  assert (filtered_out other_TID_frame) as Hout
    by (right; left; simpl; lia).
  split; [exact Hdec|]. split; [exact Hout|].
  exact (Discover_skips_filtered_reply
           sample_GROUP sample_CLASS sample_CODES sample_EHD1 sample_EHD2
           (frame * string) sample_property sample_class
           [(matching_reply, node_a)] other_TID_reply node_b [] other_TID_frame
           Hdec Hout).
Defined.

Lemma reply_without_property_witness :
  discovery_registered sample_GROUP sample_CLASS sample_CODES /\
  Forall2 (fun d found => sample_node (node_of d) = Return found) [] [] /\
  DecodeEchonetMsg sample_EHD1 sample_EHD2 empty_reply = Return empty_frame /\
  SEOJGC empty_frame = 0x0E /\ TID empty_frame = 0x01 /\ OPC empty_frame = [] /\
  sample_Discover ([] ++ (empty_reply, node_b) :: [(matching_reply, node_a)])
  = Raise IndexError.
Proof.
  assert (DecodeEchonetMsg sample_EHD1 sample_EHD2 empty_reply = Return empty_frame)
    as Hdec by (vm_compute; reflexivity).
  assert (Forall2 (fun d found => sample_node (node_of d) = Return found) [] [])
    as Hbefore by constructor.
  split; [exact sample_discovery_registered|]. split; [exact Hbefore|].
  split; [exact Hdec|]. do 3 (split; [reflexivity|]).
  exact (Discover_reply_without_property
           sample_GROUP sample_CLASS sample_CODES sample_EHD1 sample_EHD2
           (frame * string) sample_property sample_class
           [] [] empty_reply node_b [(matching_reply, node_a)] empty_frame
           sample_discovery_registered Hbefore Hdec eq_refl eq_refl eq_refl).
Defined.

Lemma Discover_returns_witness :
  discovery_registered sample_GROUP sample_CLASS sample_CODES /\
  (sample_Discover [(matching_reply, node_a); (other_TID_reply, node_b)]
   = Return [matching_device]
   <-> exists founds,
         Forall2 (fun d found => sample_node (node_of d) = Return found)
           [(matching_reply, node_a); (other_TID_reply, node_b)] founds /\
         [matching_device] = omap id founds) /\
  (sample_Discover [(matching_reply, node_a); (other_TID_reply, node_b)]
   = Return [matching_device] ->
   (length [matching_device]
    <= length [(matching_reply, node_a); (other_TID_reply, node_b)])%nat).
Proof.
  split; [exact sample_discovery_registered|].
  exact (Discover_returns
           sample_GROUP sample_CLASS sample_CODES sample_EHD1 sample_EHD2
           (frame * string) sample_property sample_class
           [(matching_reply, node_a); (other_TID_reply, node_b)] [matching_device]
           sample_discovery_registered).
Defined.

Lemma unregistered_codes_witness :
  (forall g, g ∈ sample_GROUP -> is_Some (sample_CLASS !! g)) /\
  ~ discovery_registered sample_GROUP sample_CLASS (∅ : gset Z) /\
  Discover sample_GROUP sample_CLASS ∅ sample_EHD1 sample_EHD2
    (frame * string) sample_property sample_class [(matching_reply, node_a)]
  = Quit.
Proof.
  assert (~ discovery_registered sample_GROUP sample_CLASS (∅ : gset Z)) as Hnot
    by (intros (_ & _ & He); by apply not_elem_of_empty in He).
  split; [exact sample_CLASS_complete|]. split; [exact Hnot|].
  exact (Discover_unregistered_codes
           sample_GROUP sample_CLASS ∅ sample_EHD1 sample_EHD2
           (frame * string) sample_property sample_class
           [(matching_reply, node_a)] sample_CLASS_complete Hnot).
Defined.

Lemma instance_carries_witness :
  wide_instance_request !! "DEOJCC" = Some (VInt 0xF0) /\
  wide_instance_request !! "DEOJIC" = Some (VInt 0x101) /\
  (256 <= 0x101 < 512) /\ 0xF0 < 255 /\
  well_formed_request sample_GROUP sample_CLASS sample_CODES
    (<["DEOJIC" := VInt (0x101 - 256)]> wide_instance_request) = true /\
  0x10 ∈ sample_EHD1 /\ 0x81 ∈ sample_EHD2 /\
  exists message bytes rx,
    (BuildEchonetMsg sample_GROUP sample_CLASS sample_CODES wide_instance_request).2
      = Return message /\
    fromhex message = Return bytes /\
    DecodeEchonetMsg sample_EHD1 sample_EHD2 bytes = Return rx /\
    DEOJCC rx = 0xF0 + 1 /\ DEOJIC rx = 0x101 - 256.
Proof.
  assert (wide_instance_request !! "DEOJCC" = Some (VInt 0xF0)) as Hcc
    by (vm_compute; reflexivity).
  assert (wide_instance_request !! "DEOJIC" = Some (VInt 0x101)) as Hic
    by (vm_compute; reflexivity).
  assert (well_formed_request sample_GROUP sample_CLASS sample_CODES
            (<["DEOJIC" := VInt (0x101 - 256)]> wide_instance_request) = true) as Hwf
    by (vm_compute; reflexivity).
  assert (0x10 ∈ sample_EHD1) as H1
    by (apply (bool_decide_unpack _); vm_compute; exact I).
  assert (0x81 ∈ sample_EHD2) as H2
    by (apply (bool_decide_unpack _); vm_compute; exact I).
  split; [exact Hcc|]. split; [exact Hic|]. split; [lia|]. split; [lia|].
  split; [exact Hwf|]. split; [exact H1|]. split; [exact H2|].
  exact (BuildEchonetMsg_instance_carries sample_GROUP sample_CLASS sample_CODES
           sample_EHD1 sample_EHD2 wide_instance_request 0xF0 0x101
           Hcc Hic ltac:(lia) ltac:(lia) Hwf H1 H2).
Defined.

(** The request with the instance code [0x101], run: the frame carries
    the class [f1] and the instance [01]. *)
Example instance_carries_run :
  (BuildEchonetMsg sample_GROUP sample_CLASS sample_CODES wide_instance_request).2
  = Return "1081000105ff010ef1016201d600"%string.
Proof. by vm_compute. Qed.
